(** * Order controllers: a shallow embedding of
      [src/api/controllers/orderControllers.js]

    The controller module exposes two order-creation flows: a gateway flow
    ([createOrder] / [captureOrder] and their two routes) that talks to the
    payment authority only, and a store-first flow ([placeOrder]) that
    inserts a row in the [orders] table and then sends a notification; plus
    the administrative handlers [getAllOrder], [getOrderById], [updateOrder]
    and [deleteOrder].

    Request data are JavaScript values produced by [JSON.parse]; numbers are
    IEEE-754 doubles ([spec_float]).  [req.body] is what the JSON body parser
    installed by the module leaves there, an object (or an array), never
    [null] or [undefined]; route parameters are strings.  The collaborators
    (payment SDK, mail module, database driver) answer through an
    environment record, and every call made to one of them is appended to a
    trace.  Console output is not part of the model. *)

From Stdlib Require Import ZArith String Ascii List Lia SpecFloat DecimalString
  DecimalN.
From stdpp Require Import base option list strings gmap.

Set Warnings "-register-all".
Open Scope string_scope.
Open Scope Z_scope.

(** ** JavaScript values *)

Inductive value :=
| Undefined
| Null
| Bool (b : bool)
| Num (x : spec_float)
| Str (s : string)
| Arr (elems : list value)
| Obj (fields : list (string * value)).

(** Exceptions, by constructor of the error object. [ApiError] is the SDK's
    class tested by [instanceof]; [Rejection] stands for any other error a
    collaborator rejects with (network failure, timeout). *)
Inductive exn :=
| Error (msg : string)
| TypeError (msg : string)
| SyntaxError (msg : string)
| ApiError (msg : string)
| Rejection (msg : string).

Definition message (e : exn) : string :=
  match e with
  | Error m | TypeError m | SyntaxError m | ApiError m | Rejection m => m
  end.

Definition is_ApiError (e : exn) : bool :=
  match e with ApiError _ => true | _ => false end.

(** [ToBoolean]: the test performed by [!v] and [v || w]. *)
Definition truthy (v : value) : bool :=
  match v with
  | Undefined | Null => false
  | Bool b => b
  | Num (S754_zero _) | Num S754_nan => false
  | Num _ => true
  | Str s => negb (String.eqb s "")
  | Arr _ | Obj _ => true
  end.

Definition nullish (v : value) : bool :=
  match v with Undefined | Null => true | _ => false end.

Fixpoint assoc (k : string) (fs : list (string * value)) : value :=
  match fs with
  | [] => Undefined
  | (k', v) :: rest => if String.eqb k k' then v else assoc k rest
  end.

(** [v.k] for a value that is not [null] or [undefined], and for the
    property names this module reads (none of which is inherited from a
    prototype): own fields of an object, [undefined] on anything else. *)
Definition get (v : value) (k : string) : value :=
  match v with
  | Obj fs => assoc k fs
  | _ => Undefined
  end.

Definition isArray (v : value) : bool :=
  match v with Arr _ => true | _ => false end.

(** ** Numbers *)

Definition pos_zero : spec_float := S754_zero false.
Definition one : spec_float := S754_finite false 1 0.

(** Exact comparison of [m * 2^e] with [10^21]. *)
Definition ge_1e21 (m : positive) (e : Z) : bool :=
  if 0 <=? e then 10 ^ 21 <=? Z.pos m * 2 ^ e
  else 10 ^ 21 * 2 ^ (- e) <=? Z.pos m.

(** The integer [n] for which [n / 100] is closest to [m * 2^e], the larger
    one on a tie (step 11.a of Number.prototype.toFixed). *)
Definition nearest_hundredths (m : positive) (e : Z) : Z :=
  if 0 <=? e then Z.pos m * 2 ^ e * 100
  else (200 * Z.pos m + 2 ^ (- e)) / 2 ^ (- e + 1).

Definition digit (d : Z) : ascii := ascii_of_nat (48 + Z.to_nat d).

Definition decimal (n : Z) : string :=
  NilZero.string_of_uint (N.to_uint (Z.to_N n)).

(** The digits of [n] with a point before the last two, padded with zeros
    on the left up to three digits. *)
Definition fixed2 (n : Z) : string :=
  decimal (n / 100) +:+ "." +:+
  String (digit (n mod 100 / 10)) (String (digit (n mod 10)) "").

Definition sign_prefix (s : bool) : string := if s then "-" else "".

Definition is_digit (c : ascii) : bool :=
  let n := nat_of_ascii c in (48 <=? n)%nat && (n <=? 57)%nat.

Definition is_frac2 (s : string) : bool :=
  match s with
  | String "." (String d1 (String d2 "")) => is_digit d1 && is_digit d2
  | _ => false
  end.

Fixpoint digits_then_frac2 (s : string) : bool :=
  match s with
  | String c rest => is_digit c && (is_frac2 rest || digits_then_frac2 rest)
  | "" => false
  end.

(** A decimal numeral with exactly two digits after the point:
    an optional minus sign, one or more digits, a point, two digits. *)
Definition two_decimal_places (s : string) : bool :=
  match s with
  | String "-" rest => digits_then_frac2 rest
  | _ => digits_then_frac2 s
  end.

Fixpoint all_digits (s : string) : bool :=
  match s with
  | "" => true
  | String c rest => is_digit c && all_digits rest
  end.

Definition finite_below_1e21 (x : spec_float) : bool :=
  match x with
  | S754_zero _ => true
  | S754_finite _ m e => negb (ge_1e21 m e)
  | _ => false
  end.

(** Sign tests written by cases, used to state results in the spec's
    words ("total > 0", "total <= 0") independently of [SFleb]. *)
Definition positive_number (x : spec_float) : bool :=
  match x with
  | S754_infinity false | S754_finite false _ _ => true
  | _ => false
  end.

Definition nonpositive_number (x : spec_float) : bool :=
  match x with
  | S754_zero _ | S754_infinity true | S754_finite true _ _ => true
  | _ => false
  end.

Definition is_nan (x : spec_float) : bool :=
  match x with S754_nan => true | _ => false end.

(** Doubles: 53 bits of precision, exponents up to 1024. *)
Definition is_double (x : spec_float) : bool := valid_binary 53 1024 x.

(** ** Collaborators and the world *)

(** The request handed to [ordersController.ordersCreate]. *)
Record item_request := {
  name : value;
  quantity : value;
  unit_amount_currency_code : string;
  unit_amount_value : string }.

Record create_collect := {
  intent : string;
  amount_currencyCode : string;
  amount_value : string;
  items : list item_request;
  create_prefer : string }.

Record capture_collect := {
  collect_id : value;
  capture_prefer : string }.

Record orderDetails := {
  clientName : value;
  productName : string;
  details_totalAmount : value;
  lieu : string;
  details_phoneNumber : value }.

(** One row of the [orders] table: the nine bound values of the INSERT. *)
Record row := {
  email : value;
  username : value;
  ville : value;
  quartier : value;
  phoneNumber : value;
  paymentMethod : value;
  totalAmount : value;
  order_status : value;
  cartItems : string }.

Definition set_order_status (s : value) (r : row) : row :=
  {| email := email r; username := username r; ville := ville r;
     quartier := quartier r; phoneNumber := phoneNumber r;
     paymentMethod := paymentMethod r; totalAmount := totalAmount r;
     order_status := s; cartItems := cartItems r |}.

Inductive query :=
| InsertOrder (values : row)
| SelectAll
| SelectById (id : string)
| UpdateStatus (status : value) (id : string)
| DeleteById (id : string).

Inductive event :=
| CallOrdersCreate (c : create_collect)
| CallOrdersCapture (c : capture_collect)
| CallQuery (q : query)
| CallSendOrderNotification (d : orderDetails).

Definition is_gateway_call (ev : event) : bool :=
  match ev with
  | CallOrdersCreate _ | CallOrdersCapture _ => true
  | _ => false
  end.

(** What the payment SDK's promise settles to. *)
Inductive reply :=
| Resolve (body : string) (statusCode : Z)
| Reject (e : exn).

(** How the collaborators behave during one request. *)
Record env := {
  ordersCreate : create_collect -> reply;
  ordersCapture : capture_collect -> reply;
  query_error : option exn;
  SendOrderNotification : orderDetails -> option exn }.

Record world := {
  orders : gmap Z row;
  auto_increment : Z;
  trace : list event }.

Definition record_call (ev : event) (w : world) : world :=
  {| orders := orders w; auto_increment := auto_increment w;
     trace := trace w ++ [ev] |}.

(** Result of a query, as the driver passes it to the callback. *)
Record query_result := {
  insertId : Z;
  affectedRows : Z;
  results : list row }.

Inductive json_body :=
| ErrorBody (error : string) (details : option string)
| CreatedBody (message_ : string) (orderId : Z)
| ListBody (message_ : string) (data : list row)
| RowBody (r : row)
| UpdatedBody (message_ : string) (updatedStatus : value)
| DeletedBody (message_ : string) (deletedOrderId : string)
| RawBody (json : value).

Record response := {
  status : Z;
  body : json_body }.

(** ** Exceptions, and a state and exception monad for the asynchronous code *)

#[global] Instance exn_ret : MRet (sum exn) := fun A a => inr a.
#[global] Instance exn_bind : MBind (sum exn) := fun A B k r =>
  match r with
  | inr a => k a
  | inl e => inl e
  end.

Definition M (A : Type) : Type := world -> world * (exn + A).

#[global] Instance M_ret : MRet M := fun A a w => (w, inr a).
#[global] Instance M_bind : MBind M := fun A B k m w =>
  match m w with
  | (w', inr a) => k a w'
  | (w', inl e) => (w', inl e)
  end.

Definition throw {A} (e : exn) : M A := fun w => (w, inl e).

Definition lift {A} (r : exn + A) : M A := fun w => (w, r).

Definition try_catch {A} (m : M A) (handler : exn -> M A) : M A := fun w =>
  match m w with
  | (w', inl e) => handler e w'
  | r => r
  end.

Definition call (ev : event) : M unit := fun w => (record_call ev w, inr tt).

(** A handler always answers: exceptions are turned into responses. *)
Definition handler : Type := world -> world * response.

Definition respond (code : Z) (b : json_body) : handler :=
  fun w => (w, {| status := code; body := b |}).

(** ** Built-ins the module relies on

    Functions of the language and of the database server whose results the
    controllers only pass along.  They are parameters of the model. *)
Record Runtime := {
  (** [Number::toString] on a finite double of magnitude at least 10^21
      (exponent notation). *)
  Number_toString : spec_float -> string;
  (** [ToNumber] on a string, an array or an object; may throw. *)
  ToNumber_coerced : value -> exn + spec_float;
  (** [ToString] on a number, an array or an object; may throw. *)
  ToString_coerced : value -> exn + string;
  JSON_stringify : value -> string;
  JSON_parse : string -> exn + value;
  (** Text of the engine's TypeError messages. *)
  type_error_text : string;
  (** The key of the [orders] table that [WHERE id = ?] matches for a bound
      string, if any. *)
  sql_id : string -> option Z }.

Section Controllers.

Context (rt : Runtime).

Definition type_error {A} : exn + A := inl (TypeError (type_error_text rt)).

(** [Number.prototype.toFixed(2)]. *)
Definition toFixed2 (x : spec_float) : string :=
  match x with
  | S754_nan => "NaN"
  | S754_infinity false => "Infinity"
  | S754_infinity true => "-Infinity"
  | S754_zero _ => "0.00"
  | S754_finite s m e =>
      if ge_1e21 m e
      then sign_prefix s +:+ Number_toString rt (S754_finite false m e)
      else sign_prefix s +:+ fixed2 (nearest_hundredths m e)
  end.

(** [v.toFixed(2)]: only numbers have the method. *)
Definition call_toFixed2 (v : value) : exn + string :=
  match v with
  | Num x => inr (toFixed2 x)
  | _ => type_error
  end.

(** [item.k] where [item] may be [null] or [undefined]. *)
Definition get_prop (v : value) (k : string) : exn + value :=
  if nullish v then type_error else inr (get v k).

Definition ToNumber (v : value) : exn + spec_float :=
  match v with
  | Undefined => inr S754_nan
  | Null => inr pos_zero
  | Bool b => inr (if b then one else pos_zero)
  | Num x => inr x
  | _ => ToNumber_coerced rt v
  end.

Definition ToString (v : value) : exn + string :=
  match v with
  | Undefined => inr "undefined"
  | Null => inr "null"
  | Bool b => inr (if b then "true" else "false")
  | Str s => inr s
  | _ => ToString_coerced rt v
  end.

(** [v <= 0]. *)
Definition le_zero (v : value) : exn + bool :=
  x ← ToNumber v; inr (SFleb x pos_zero).

(** *** validateCartData *)

Definition validateCartData (cart : value) : M unit :=
  if negb (truthy cart) || negb (truthy (get cart "total")) then
    throw (Error "Invalid cart: Total amount must be greater than zero")
  else
    nonpositive ← lift (le_zero (get cart "total"));
    if (nonpositive : bool) then
      throw (Error "Invalid cart: Total amount must be greater than zero")
    else
      match get cart "items" with
      | Arr (_ :: _) => mret tt
      | _ => throw (Error "Invalid cart: No items found")
      end.

(** *** createOrder *)

Definition build_item (item : value) : exn + item_request :=
  n ← get_prop item "productName";
  q ← get_prop item "quantity";
  p ← get_prop item "price";
  v ← call_toFixed2 p;
  inr {| name := n; quantity := q;
         unit_amount_currency_code := "USD"; unit_amount_value := v |}.

Fixpoint build_items (l : list value) : exn + list item_request :=
  match l with
  | [] => inr []
  | item :: rest =>
      i ← build_item item;
      reqs ← build_items rest;
      inr (i :: reqs)
  end.

Definition build_collect (cart : value) : exn + create_collect :=
  total ← call_toFixed2 (get cart "total");
  reqs ← match get cart "items" with
       | Arr l => build_items l
       | _ => type_error
       end;
  inr {| intent := "CAPTURE"; amount_currencyCode := "USD";
         amount_value := total; items := reqs;
         create_prefer := "return=minimal" |}.

Definition await_reply (r : reply) : M (value * Z) :=
  match r with
  | Reject e => throw e
  | Resolve b code => json ← lift (JSON_parse rt b); mret (json, code)
  end.

(** The statements of the [try] block that follow the validation: build
    [collect], call the SDK, parse the reply. *)
Definition request_authorization (E : env) (cart : value) : M (value * Z) :=
  collect ← lift (build_collect cart);
  call (CallOrdersCreate collect);;
  await_reply (ordersCreate E collect).

(** The [catch] block of [createOrder]. *)
Definition rethrow_create {A} (error : exn) : M A :=
  if is_ApiError error
  then throw (Error ("PayPal API Error: " +:+ message error))
  else throw error.

Definition createOrder (E : env) (cart : value) : M (value * Z) :=
  try_catch
    (validateCartData cart;; request_authorization E cart)
    rethrow_create.

(** The route [POST /api/orders]. *)
Definition post_api_orders (E : env) (req_body : value) : handler := fun w =>
  let cart := get req_body "cart" in
  if negb (truthy cart) then
    respond 400 (ErrorBody "Cart data is required" None) w
  else
    match createOrder E cart w with
    | (w', inr (jsonResponse, httpStatusCode)) =>
        respond httpStatusCode (RawBody jsonResponse) w'
    | (w', inl error) =>
        respond 500 (ErrorBody "Failed to create order" (Some (message error))) w'
    end.

(** *** captureOrder *)

Definition captureOrder (E : env) (orderID : value) : M (value * Z) :=
  if negb (truthy orderID) then throw (Error "Order ID is required")
  else
    try_catch
      (let collect := {| collect_id := orderID;
                         capture_prefer := "return=minimal" |} in
       call (CallOrdersCapture collect);;
       await_reply (ordersCapture E collect))
      (fun error =>
         if is_ApiError error
         then throw (Error ("PayPal API Capture Error: " +:+ message error))
         else throw error).

(** The route [POST /api/orders/:orderID/capture]. *)
Definition post_api_orders_capture (E : env) (orderID : string) : handler :=
  fun w =>
  if negb (truthy (Str orderID)) then
    respond 400 (ErrorBody "Order ID is required" None) w
  else
    match captureOrder E (Str orderID) w with
    | (w', inr (jsonResponse, httpStatusCode)) =>
        respond httpStatusCode (RawBody jsonResponse) w'
    | (w', inl error) =>
        respond 500 (ErrorBody "Failed to capture order" (Some (message error))) w'
    end.

(** *** The orders table *)

Definition set_orders (o : gmap Z row) (w : world) : world :=
  {| orders := o; auto_increment := auto_increment w; trace := trace w |}.

Definition insert_row (r : row) (w : world) : world :=
  {| orders := <[auto_increment w := r]> (orders w);
     auto_increment := auto_increment w + 1;
     trace := trace w |}.

(** Modelled from the spec: the database module [../config/dbconfig]
    ([db.query]) is not part of the sources.  Section 4.3 describes the
    store: create assigns the identifier, get and list read, updateStatus
    and delete report through the affected-row count whether the
    identifier names a record, and every operation touches a single
    record.  A failing query (the callback's [err]) leaves the table as it
    was.  The five queries are the SQL statements of the handlers:
    INSERT INTO orders, SELECT * FROM orders, SELECT ... WHERE id = ?,
    UPDATE orders SET order_status = ? WHERE id = ? and
    DELETE FROM orders WHERE id = ?. *)
Definition run_query (q : query) (w : world) : world * query_result :=
  match q with
  | InsertOrder r =>
      (insert_row r w,
       {| insertId := auto_increment w; affectedRows := 1; results := [] |})
  | SelectAll =>
      (w, {| insertId := 0; affectedRows := 0;
             results := (map_to_list (orders w)).*2 |})
  | SelectById i =>
      (w, {| insertId := 0; affectedRows := 0;
             results := match k ← sql_id rt i; orders w !! k with
                        | Some r => [r]
                        | None => []
                        end |})
  | UpdateStatus s i =>
      match k ← sql_id rt i; r ← orders w !! k; Some (k, r) with
      | Some (k, r) =>
          (set_orders (<[k := set_order_status s r]> (orders w)) w,
           {| insertId := 0; affectedRows := 1; results := [] |})
      | None => (w, {| insertId := 0; affectedRows := 0; results := [] |})
      end
  | DeleteById i =>
      match k ← sql_id rt i; r ← orders w !! k; Some k with
      | Some k =>
          (set_orders (delete k (orders w)) w,
           {| insertId := 0; affectedRows := 1; results := [] |})
      | None => (w, {| insertId := 0; affectedRows := 0; results := [] |})
      end
  end.

(** [db.query(sql, values, callback)]: the callback receives either [err]
    or the result. *)
Definition db_query (E : env) (q : query) : M query_result :=
  call (CallQuery q);;
  match query_error E with
  | Some err => throw err
  | None => fun w => let (w', r) := run_query q w in (w', inr r)
  end.

(** *** placeOrder *)

(** [Array.prototype.join(', ')] over the mapped product names. *)
Fixpoint join_names (l : list value) : exn + string :=
  match l with
  | [] => inr ""
  | v :: rest =>
      s ← (if nullish v then inr "" else ToString v);
      match rest with
      | [] => inr s
      | _ => t ← join_names rest; inr (s +:+ ", " +:+ t)
      end
  end.

Fixpoint product_names (l : list value) : exn + list value :=
  match l with
  | [] => inr []
  | item :: rest =>
      n ← get_prop item "productName";
      ns ← product_names rest;
      inr (n :: ns)
  end.

Definition build_orderDetails (user cartItems totalAmount : value)
  : exn + orderDetails :=
  names ← match cartItems with
          | Arr l => product_names l
          | _ => type_error
          end;
  joined ← join_names names;
  q ← ToString (get user "quartier");
  v ← ToString (get user "ville");
  inr {| clientName := get user "user_Name";
         productName := joined;
         details_totalAmount := totalAmount;
         lieu := q +:+ ", " +:+ v;
         details_phoneNumber := get user "phoneNumber" |}.

Definition order_values (req_body : value) : row :=
  let user := get req_body "user" in
  {| email := get user "email_customer";
     username := get user "user_Name";
     ville := get user "ville";
     quartier := get user "quartier";
     phoneNumber := get user "phoneNumber";
     paymentMethod := get req_body "paymentMethod";
     totalAmount := get req_body "totalAmount";
     order_status := if truthy (get req_body "order_status")
                     then get req_body "order_status" else Str "pending";
     cartItems := JSON_stringify rt (get req_body "cartItems") |}.

(** The guard on the request body: [true] when the order is incomplete. *)
Definition incomplete (req_body : value) : bool :=
  negb (truthy (get req_body "user"))
  || negb (truthy (get req_body "cartItems"))
  || negb (isArray (get req_body "cartItems"))
  || negb (truthy (get req_body "totalAmount"))
  || negb (truthy (get req_body "paymentMethod")).

(** The part of the query callback that runs once the row is inserted. *)
Definition notify_and_respond (E : env) (req_body : value) (orderId : Z)
  : handler := fun w =>
  let attempt : M response :=
    d ← lift (build_orderDetails (get req_body "user")
                (get req_body "cartItems") (get req_body "totalAmount"));
    call (CallSendOrderNotification d);;
    match SendOrderNotification E d with
    | Some emailError => throw emailError
    | None =>
        mret {| status := 201;
                body := CreatedBody "Commande créée avec succès." orderId |}
    end in
  match attempt w with
  | (w', inr r) => (w', r)
  | (w', inl emailError) =>
      respond 500
        (ErrorBody "Commande créée, mais échec de l'envoi de la notification."
           (Some (message emailError))) w'
  end.

(** The statements of the outer [try] cannot throw once the guard has
    passed ([user] is not nullish and [cartItems] is an array), so its
    [catch] block has no counterpart here. *)
Definition placeOrder (E : env) (req_body : value) : handler := fun w =>
  if incomplete req_body then
    respond 400 (ErrorBody "Données de commande incomplètes." None) w
  else
    match db_query E (InsertOrder (order_values req_body)) w with
    | (w', inl err) =>
        respond 500
          (ErrorBody "Erreur lors de la création de la commande."
             (Some (message err))) w'
    | (w', inr result) => notify_and_respond E req_body (insertId result) w'
    end.

(** *** getAllOrder, getOrderById, updateOrder, deleteOrder *)

Definition getAllOrder (E : env) : handler := fun w =>
  match db_query E SelectAll w with
  | (w', inl err) =>
      respond 500
        (ErrorBody "Database error during orders retrieval"
           (Some (message err))) w'
  | (w', inr result) =>
      respond 200 (ListBody "Orders retrieved successfully" (results result)) w'
  end.

Definition getOrderById (E : env) (id : string) : handler := fun w =>
  if negb (truthy (Str id)) then
    respond 400 (ErrorBody "Order ID is required" None) w
  else
    match db_query E (SelectById id) w with
    | (w', inl err) =>
        respond 500
          (ErrorBody "Database error during order retrieval"
             (Some (message err))) w'
    | (w', inr result) =>
        match results result with
        | [] => respond 404 (ErrorBody "Order not found" None) w'
        | r :: _ => respond 200 (RowBody r) w'
        end
    end.

Definition updateOrder (E : env) (id : string) (req_body : value) : handler :=
  fun w =>
  let orderStatus := get req_body "orderStatus" in
  if negb (truthy (Str id)) then
    respond 400 (ErrorBody "Order ID is required" None) w
  else if negb (truthy orderStatus) then
    respond 400 (ErrorBody "Order status is required" None) w
  else
    match db_query E (UpdateStatus orderStatus id) w with
    | (w', inl err) =>
        respond 500
          (ErrorBody "Database error during order update"
             (Some (message err))) w'
    | (w', inr result) =>
        if affectedRows result =? 0 then
          respond 404 (ErrorBody "Order not found" None) w'
        else
          respond 200 (UpdatedBody "Order updated successfully" orderStatus) w'
    end.

Definition deleteOrder (E : env) (id : string) : handler := fun w =>
  if negb (truthy (Str id)) then
    respond 400 (ErrorBody "Order ID is required" None) w
  else
    match db_query E (DeleteById id) w with
    | (w', inl err) =>
        respond 500
          (ErrorBody "Database error during order deletion"
             (Some (message err))) w'
    | (w', inr result) =>
        if affectedRows result =? 0 then
          respond 404 (ErrorBody "Order not found" None) w'
        else
          respond 200 (DeletedBody "Order deleted successfully" id) w'
    end.

(** *** The program as a whole: any sequence of requests *)

Inductive request :=
| PostApiOrders (req_body : value)
| PostApiOrdersCapture (orderID : string)
| PlaceOrder (req_body : value)
| GetAllOrder
| GetOrderById (id : string)
| UpdateOrder (id : string) (req_body : value)
| DeleteOrder (id : string).

Definition handle (E : env) (r : request) : handler :=
  match r with
  | PostApiOrders b => post_api_orders E b
  | PostApiOrdersCapture i => post_api_orders_capture E i
  | PlaceOrder b => placeOrder E b
  | GetAllOrder => getAllOrder E
  | GetOrderById i => getOrderById E i
  | UpdateOrder i b => updateOrder E i b
  | DeleteOrder i => deleteOrder E i
  end.

Fixpoint serve (reqs : list (env * request)) (w : world) : world :=
  match reqs with
  | [] => w
  | (E, r) :: rest => serve rest (handle E r w).1
  end.

End Controllers.

Definition initial_world : world :=
  {| orders := ∅; auto_increment := 1; trace := [] |}.

(** ** Vocabulary of the specification *)

(** The calls made to collaborators while a handler runs from [w] to [w']. *)
Definition calls_since (w w' : world) : list event :=
  drop (length (trace w)) (trace w').

Definition absent (v : value) : bool := nullish v.

Definition nonempty_sequence (v : value) : bool :=
  match v with Arr (_ :: _) => true | _ => false end.

(** Section 4.1, in its own words: the cart is absent, or its total is
    absent or at most zero, or its items are not a non-empty sequence. *)
Definition spec_invalid_cart (cart : value) : bool :=
  absent cart
  || absent (get cart "total")
  || match get cart "total" with
     | Num x => nonpositive_number x
     | _ => false
     end
  || negb (nonempty_sequence (get cart "items")).

(** The totals of the data model: absent, or a number ([JSON.parse] never
    yields NaN). *)
Definition absent_or_number (v : value) : bool :=
  match v with
  | Undefined | Null => true
  | Num x => negb (is_nan x)
  | _ => false
  end.

Definition empty_or_absent_id (v : value) : bool :=
  match v with
  | Undefined | Null | Str "" => true
  | _ => false
  end.

Definition is_number (v : value) : bool :=
  match v with Num _ => true | _ => false end.

(** An item from which [createOrder] can read a unit price. *)
Definition priced_item (item : value) : bool :=
  negb (nullish item) && is_number (get item "price").

(** What a persisted row owes to the guard of [placeOrder]. *)
Definition complete_row (rt : Runtime) (r : row) : Prop :=
  truthy (totalAmount r) = true ∧
  truthy (paymentMethod r) = true ∧
  ∃ l, cartItems r = JSON_stringify rt (Arr l).

(** Identifiers handed out so far are below the counter. *)
Definition fresh_ids (w : world) : Prop :=
  ∀ k r, orders w !! k = Some r → k < auto_increment w.

(** The text reported by [createOrder] for a rejected gateway call. *)
Definition gateway_error_text (e : exn) : string :=
  if is_ApiError e then "PayPal API Error: " +:+ message e else message e.

(** One entry of the per-item breakdown, read off the cart item. *)
Definition item_breakdown (rt : Runtime) (item : value) (i : item_request)
  : Prop :=
  name i = get item "productName"
  ∧ quantity i = get item "quantity"
  ∧ unit_amount_currency_code i = "USD"
  ∧ ∃ p, get item "price" = Num p
         ∧ unit_amount_value i = toFixed2 rt p
         ∧ (finite_below_1e21 p = true →
            two_decimal_places (unit_amount_value i) = true).

Definition request_shape (rt : Runtime) (cart : value) (c : create_collect)
  : Prop :=
  intent c = "CAPTURE"
  ∧ amount_currencyCode c = "USD"
  ∧ ∃ total l, get cart "total" = Num total
               ∧ get cart "items" = Arr l
               ∧ amount_value c = toFixed2 rt total
               ∧ (finite_below_1e21 total = true →
                  two_decimal_places (amount_value c) = true)
               ∧ Forall2 (item_breakdown rt) l (items c).

(** How one request may change the orders table. *)
Inductive table_step (rt : Runtime) (w w' : world) : Prop :=
| table_same :
    orders w' = orders w →
    auto_increment w' = auto_increment w →
    table_step rt w w'
| table_insert (req_body : value) :
    incomplete req_body = false →
    orders w' = <[auto_increment w := order_values rt req_body]> (orders w) →
    auto_increment w' = auto_increment w + 1 →
    table_step rt w w'
| table_update (k : Z) (r : row) (s : value) :
    orders w !! k = Some r →
    orders w' = <[k := set_order_status s r]> (orders w) →
    auto_increment w' = auto_increment w →
    table_step rt w w'
| table_delete (k : Z) :
    orders w' = delete k (orders w) →
    auto_increment w' = auto_increment w →
    table_step rt w w'.

(** The responses of [placeOrder]. *)
Definition incomplete_response : response :=
  {| status := 400; body := ErrorBody "Données de commande incomplètes." None |}.

Definition insert_failed_response (err : exn) : response :=
  {| status := 500;
     body := ErrorBody "Erreur lors de la création de la commande."
               (Some (message err)) |}.

Definition notification_failed_response (emailError : exn) : response :=
  {| status := 500;
     body := ErrorBody
               "Commande créée, mais échec de l'envoi de la notification."
               (Some (message emailError)) |}.

Definition created_response (orderId : Z) : response :=
  {| status := 201; body := CreatedBody "Commande créée avec succès." orderId |}.

Definition throws {A} (r : exn + A) : bool :=
  match r with inl _ => true | inr _ => false end.

(** ** Sample data *)

(** The double nearest to an integer. *)
Definition number (z : Z) : spec_float := binary_normalize 53 1024 z 0 false.

Definition infinity : spec_float := S754_infinity false.

(** A runtime for running the model on examples; [sql_id] reads a decimal
    numeral, the other entries are placeholders. *)
Definition sample_runtime : Runtime :=
  {| Number_toString := fun _ => "1e+21";
     ToNumber_coerced := fun _ => inr S754_nan;
     ToString_coerced := fun _ => inr "[object Object]";
     JSON_stringify := fun v => match v with Arr [] => "[]" | _ => "[...]" end;
     JSON_parse := fun s => inr (Obj [("id", Str s)]);
     type_error_text := "TypeError";
     sql_id := fun s => Z.of_uint <$> NilEmpty.uint_of_string s |}.

(** Every collaborator answers. *)
Definition all_up : env :=
  {| ordersCreate := fun _ => Resolve "5O190127TN364715T" 201;
     ordersCapture := fun _ => Resolve "5O190127TN364715T" 201;
     query_error := None;
     SendOrderNotification := fun _ => None |}.

(** The mail module rejects. *)
Definition mail_down : env :=
  {| ordersCreate := ordersCreate all_up;
     ordersCapture := ordersCapture all_up;
     query_error := None;
     SendOrderNotification := fun _ => Some (Rejection "ECONNREFUSED") |}.

(** The payment authority rejects. *)
Definition gateway_down : env :=
  {| ordersCreate := fun _ => Reject (ApiError "UNPROCESSABLE_ENTITY");
     ordersCapture := fun _ => Reject (Rejection "ETIMEDOUT");
     query_error := None;
     SendOrderNotification := fun _ => None |}.

Definition item_A : value :=
  Obj [("productName", Str "A"); ("quantity", Num (number 2));
       ("price", Num (number 3))].

Definition cart_6 : value :=
  Obj [("total", Num (number 6)); ("items", Arr [item_A])].

(** [{"total": 0, "items": []}] *)
Definition cart_empty : value :=
  Obj [("total", Num (number 0)); ("items", Arr [])].

(** [{"total": 1e999, "items": [...]}]: the literal overflows to Infinity. *)
Definition cart_overflow : value :=
  Obj [("total", Num infinity); ("items", Arr [item_A])].

(** An item without a name and with a negative quantity. *)
Definition item_odd : value :=
  Obj [("quantity", Num (number (-1))); ("price", Num (number 3))].

Definition cart_odd : value :=
  Obj [("total", Num (number 6)); ("items", Arr [item_odd])].

Definition customer : value :=
  Obj [("email_customer", Str "ada@example.org"); ("user_Name", Str "Ada");
       ("ville", Str "Douala"); ("quartier", Str "Akwa");
       ("phoneNumber", Str "600000000")].

Definition order_body : value :=
  Obj [("user", customer); ("cartItems", Arr [item_A]);
       ("totalAmount", Num (number 6)); ("paymentMethod", Str "cash")].

(** A negative amount and no item at all. *)
Definition order_body_negative : value :=
  Obj [("user", customer); ("cartItems", Arr []);
       ("totalAmount", Num (number (-5))); ("paymentMethod", Str "cash")].

Definition status_body : value := Obj [("orderStatus", Str "pending")].

(** ** Loading the module *)

Inductive Environment := Sandbox | Production.

Inductive LogLevel := Info.

(** The argument of [new Client(...)]. *)
Record client_config := {
  oAuthClientId : value;
  oAuthClientSecret : value;
  timeout : Z;
  environment : Environment;
  logLevel : LogLevel;
  logRequest_logBody : bool;
  logResponse_logHeaders : bool }.

Definition requiredEnvVars : list string :=
  ["PAYPAL_CLIENT_ID"; "PAYPAL_CLIENT_SECRET"].

(** [process.env[varName]]: a string, or [undefined] when the variable is
    not set. *)
Definition env_var (process_env : gmap string string) (varName : string)
  : value :=
  match process_env !! varName with
  | Some s => Str s
  | None => Undefined
  end.

(** The [forEach] over the required variables: the status passed to
    [process.exit] at the first one that is missing, if any. *)
Fixpoint check_required (vars : list string) (process_env : gmap string string)
  : option Z :=
  match vars with
  | [] => None
  | varName :: rest =>
      if negb (truthy (env_var process_env varName)) then Some 1
      else check_required rest process_env
  end.

(** [createPayPalClient]; the constructor of the SDK is a collaborator that
    may throw. *)
Definition createPayPalClient (new_Client : client_config -> option exn)
    (process_env : gmap string string) : exn + client_config :=
  let config :=
    {| oAuthClientId := env_var process_env "PAYPAL_CLIENT_ID";
       oAuthClientSecret := env_var process_env "PAYPAL_CLIENT_SECRET";
       timeout := 5000;
       environment := Sandbox;
       logLevel := Info;
       logRequest_logBody := true;
       logResponse_logHeaders := true |} in
  match new_Client config with
  | Some error => inl (Error "PayPal client initialization failed")
  | None => inr config
  end.

Inductive load_outcome :=
| Exited (code : Z)
| LoadFailed (e : exn)
| Loaded (client : client_config).

(** The top-level statements of the module, up to [const client]. *)
Definition load_module (new_Client : client_config -> option exn)
    (process_env : gmap string string) : load_outcome :=
  match check_required requiredEnvVars process_env with
  | Some code => Exited code
  | None =>
      match createPayPalClient new_Client process_env with
      | inl e => LoadFailed e
      | inr client => Loaded client
      end
  end.

(** ** Further vocabulary *)

(** The calls one request may make, by kind of request. *)
Definition call_pattern (rt : Runtime) (r : request) (calls : list event)
  : Prop :=
  match r with
  | PostApiOrders _ => calls = [] ∨ ∃ c, calls = [CallOrdersCreate c]
  | PostApiOrdersCapture i =>
      calls = []
      ∨ calls = [CallOrdersCapture {| collect_id := Str i;
                                      capture_prefer := "return=minimal" |}]
  | PlaceOrder b =>
      calls = []
      ∨ calls = [CallQuery (InsertOrder (order_values rt b))]
      ∨ ∃ d, calls = [CallQuery (InsertOrder (order_values rt b));
                      CallSendOrderNotification d]
  | GetAllOrder => calls = [CallQuery SelectAll]
  | GetOrderById i => calls = [] ∨ calls = [CallQuery (SelectById i)]
  | UpdateOrder i b =>
      calls = [] ∨ calls = [CallQuery (UpdateStatus (get b "orderStatus") i)]
  | DeleteOrder i => calls = [] ∨ calls = [CallQuery (DeleteById i)]
  end.

(** The text an item contributes to the product list of the notification:
    its [productName] when that is a string, nothing when it is missing. *)
Definition item_label (item : value) (label : string) : Prop :=
  nullish item = false
  ∧ (get item "productName" = Str label
     ∨ (nullish (get item "productName") = true ∧ label = "")).

(** An environment variable that is set to a non-empty string. *)
Definition is_set (process_env : gmap string string) (varName : string)
  : Prop :=
  ∃ s, process_env !! varName = Some s ∧ s ≠ "".

Definition digit_value (c : ascii) : Z := Z.of_nat (nat_of_ascii c) - 48.

(** Reads an unsigned numeral with two decimals as a number of hundredths. *)
Fixpoint read_hundredths (acc : Z) (s : string) : option Z :=
  match s with
  | "" => None
  | String c rest =>
      if is_digit c then read_hundredths (10 * acc + digit_value c) rest
      else
        match s with
        | String "." (String d1 (String d2 "")) =>
            if is_digit d1 && is_digit d2
            then Some (100 * acc + 10 * digit_value d1 + digit_value d2)
            else None
        | _ => None
        end
  end.

(** [n] hundredths is the multiple of 0.01 nearest to [m * 2^e], the upper
    one when two are equally near. *)
Definition nearest_hundredth (m : positive) (e : Z) (n : Z) : Prop :=
  if 0 <=? e then n = 100 * (Z.pos m * 2 ^ e)
  else - 2 ^ (- e) <= 2 * (100 * Z.pos m - n * 2 ^ (- e)) < 2 ^ (- e).

(** The input a handler requires is missing: the test that makes it answer
    400 before doing anything. *)
Definition missing_input (r : request) : bool :=
  match r with
  | PostApiOrders b => negb (truthy (get b "cart"))
  | PostApiOrdersCapture i => String.eqb i ""
  | PlaceOrder b => incomplete b
  | GetAllOrder => false
  | GetOrderById i => String.eqb i ""
  | UpdateOrder i b =>
      String.eqb i "" || negb (truthy (get b "orderStatus"))
  | DeleteOrder i => String.eqb i ""
  end.

(** The entry of the breakdown that an item is turned into: name and
    quantity are copied as they come, the price is printed. *)
Definition forward_item (rt : Runtime) (item : value) : item_request :=
  {| name := get item "productName";
     quantity := get item "quantity";
     unit_amount_currency_code := "USD";
     unit_amount_value := match get item "price" with
                          | Num p => toFixed2 rt p
                          | _ => ""
                          end |}.

(** The configuration built from two credentials. *)
Definition sandbox_config (id secret : string) : client_config :=
  {| oAuthClientId := Str id; oAuthClientSecret := Str secret;
     timeout := 5000; environment := Sandbox; logLevel := Info;
     logRequest_logBody := true; logResponse_logHeaders := true |}.

(** [{"total": false, "items": [...]}] *)
Definition cart_false_total : value :=
  Obj [("total", Bool false); ("items", Arr [item_A])].

(** A cart whose total is NaN, as a caller of the exported function can
    pass it. *)
Definition cart_nan_total : value :=
  Obj [("total", Num S754_nan); ("items", Arr [item_A])].

(** [{"total": "5", "items": []}] *)
Definition cart_string_total : value :=
  Obj [("total", Str "5"); ("items", Arr [])].

(** The text reported for a rejected capture. *)
Definition capture_error_text (e : exn) : string :=
  if is_ApiError e then "PayPal API Capture Error: " +:+ message e
  else message e.

Definition total_message : string :=
  "Invalid cart: Total amount must be greater than zero".

Definition items_message : string := "Invalid cart: No items found".

(** The store refuses every query. *)
Definition store_down : env :=
  {| ordersCreate := ordersCreate all_up;
     ordersCapture := ordersCapture all_up;
     query_error := Some (Rejection "ER_CON_COUNT_ERROR");
     SendOrderNotification := fun _ => None |}.

(** An order whose item list holds a [null]. *)
Definition order_body_null_item : value :=
  Obj [("user", customer); ("cartItems", Arr [item_A; Null]);
       ("totalAmount", Num (number 6)); ("paymentMethod", Str "cash")].

Definition item_B : value :=
  Obj [("productName", Str "B"); ("quantity", Num (number 1));
       ("price", Num (number 3))].

Definition credentials : gmap string string :=
  <["PAYPAL_CLIENT_ID" := "id"]> (<["PAYPAL_CLIENT_SECRET" := "secret"]> ∅).

(** Unfolds the monadic operations. *)
Ltac run_M :=
  unfold mbind, mret, M_bind, M_ret, exn_bind, exn_ret,
    lift, throw, call, try_catch, respond in *.

(** ** Fixed-point formatting *)

Lemma is_digit_digit d : 0 <= d <= 9 -> is_digit (digit d) = true.
Proof.
  intros Hd.
  assert (Hcases : d = 0 \/ d = 1 \/ d = 2 \/ d = 3 \/ d = 4 \/ d = 5
                   \/ d = 6 \/ d = 7 \/ d = 8 \/ d = 9) by lia.
  repeat (destruct Hcases as [-> | Hcases]; [reflexivity |]).
  subst d. reflexivity.
Qed.

Lemma all_digits_string_of_uint u :
  all_digits (NilEmpty.string_of_uint u) = true.
Proof. induction u; simpl; auto. Qed.

Lemma decimal_all_digits n : all_digits (decimal n) = true.
Proof.
  unfold decimal, NilZero.string_of_uint.
  destruct (N.to_uint (Z.to_N n)); try reflexivity;
    apply (all_digits_string_of_uint (_ _)).
Qed.

Lemma decimal_nonempty n : decimal n <> "".
Proof.
  unfold decimal, NilZero.string_of_uint.
  destruct (N.to_uint (Z.to_N n)); simpl; discriminate.
Qed.

Lemma digits_then_frac2_app a b :
  all_digits a = true -> a <> "" -> is_frac2 b = true ->
  digits_then_frac2 (a +:+ b) = true.
Proof.
  induction a as [| c a IH]; intros Hall Hne Hb; [congruence |].
  simpl in Hall. apply andb_prop in Hall as [Hc Ha].
  change (String c a +:+ b) with (String c (a +:+ b)).
  cbn [digits_then_frac2]. rewrite Hc. cbn [andb].
  destruct a as [| c' a'].
  - change ("" +:+ b) with b. rewrite Hb. reflexivity.
  - rewrite IH by (auto; discriminate). apply orb_true_r.
Qed.

Lemma two_decimal_places_unsigned s :
  digits_then_frac2 s = true -> two_decimal_places s = true.
Proof.
  destruct s as [| c rest]; [discriminate |].
  destruct c as [[] [] [] [] [] [] [] []]; simpl; auto; discriminate.
Qed.

Lemma fixed2_digits n : digits_then_frac2 (fixed2 n) = true.
Proof.
  unfold fixed2. apply digits_then_frac2_app.
  - apply decimal_all_digits.
  - apply decimal_nonempty.
  - cbv beta iota delta [is_frac2 String.append].
    rewrite !is_digit_digit; [reflexivity | |].
    + pose proof (Z.mod_pos_bound n 10). lia.
    + pose proof (Z.mod_pos_bound n 100).
      assert (0 <= n mod 100 / 10) by (apply Z.div_pos; lia).
      assert (n mod 100 / 10 < 10) by (apply Z.div_lt_upper_bound; lia).
      lia.
Qed.

Example toFixed2_6 : toFixed2 sample_runtime (number 6) = "6.00".
Proof. reflexivity. Qed.

(** 0.125 lies halfway between 0.12 and 0.13: the larger one is printed. *)
Example toFixed2_eighth :
  toFixed2 sample_runtime (binary_normalize 53 1024 1 (-3) false) = "0.13".
Proof. reflexivity. Qed.

Example toFixed2_minus_three_halves :
  toFixed2 sample_runtime (binary_normalize 53 1024 (-3) (-1) false) = "-1.50".
Proof. reflexivity. Qed.

(** The double nearest to 1.005 is below it. *)
Example toFixed2_1_005 :
  toFixed2 sample_runtime (S754_finite false 4526117625507348 (-52)) = "1.00".
Proof. reflexivity. Qed.

Lemma toFixed2_two_decimal_places rt x :
  finite_below_1e21 x = true -> two_decimal_places (toFixed2 rt x) = true.
Proof.
  destruct x as [s | s | | s m e]; simpl; try discriminate; [reflexivity |].
  intros Hlt. apply negb_true_iff in Hlt. rewrite Hlt.
  destruct s; simpl.
  - apply fixed2_digits.
  - apply two_decimal_places_unsigned, fixed2_digits.
Qed.

(** The number printed is the nearest multiple of one hundredth: for
    [m * 2^e] with [e < 0], twice the distance between [n] and
    [100 * m * 2^e] is at most one, and [n] is the larger candidate on a
    tie. *)
Lemma nearest_hundredths_spec m e :
  e < 0 ->
  let n := nearest_hundredths m e in
  2 * (100 * Z.pos m) - 2 ^ (- e) < 2 * n * 2 ^ (- e)
  /\ 2 * n * 2 ^ (- e) <= 2 * (100 * Z.pos m) + 2 ^ (- e).
Proof.
  intros He n. subst n. unfold nearest_hundredths.
  destruct (Z.leb_spec 0 e); [lia |].
  assert (Hp : 0 < 2 ^ (- e)) by (apply Z.pow_pos_nonneg; lia).
  replace (2 ^ (- e + 1)) with (2 * 2 ^ (- e))
    by (rewrite Z.pow_add_r by lia; lia).
  set (p := 2 ^ (- e)) in *.
  pose proof (Z.div_mod (200 * Z.pos m + p) (2 * p) ltac:(lia)) as Hdm.
  pose proof (Z.mod_pos_bound (200 * Z.pos m + p) (2 * p) ltac:(lia)) as Hb.
  nia.
Qed.

(** ** The gateway flow *)

Lemma validateCartData_world rt cart w :
  (validateCartData rt cart w).1 = w.
Proof.
  unfold validateCartData. run_M.
  destruct (negb (truthy cart) || negb (truthy (get cart "total")));
    [reflexivity |].
  destruct (le_zero rt (get cart "total")) as [e | []]; try reflexivity.
  destruct (get cart "items") as [| | | | | [|] |]; reflexivity.
Qed.

Lemma validateCartData_pure rt cart w :
  validateCartData rt cart w = (w, (validateCartData rt cart w).2).
Proof.
  rewrite <- (validateCartData_world rt cart w) at 2.
  destruct (validateCartData rt cart w); reflexivity.
Qed.

Lemma createOrder_rejects_invalid rt E cart w e :
  (validateCartData rt cart w).2 = inl e ->
  createOrder rt E cart w = (w, inl (if is_ApiError e
                                     then Error ("PayPal API Error: " +:+ message e)
                                     else e)).
Proof.
  intros Hv. unfold createOrder, rethrow_create.
  unfold try_catch, mbind, M_bind at 1.
  rewrite validateCartData_pure, Hv.
  destruct (is_ApiError e); reflexivity.
Qed.

Lemma createOrder_after_validation rt E cart w :
  (validateCartData rt cart w).2 = inr () ->
  createOrder rt E cart w
  = try_catch (request_authorization rt E cart) rethrow_create w.
Proof.
  intros Hv. unfold createOrder.
  unfold try_catch, mbind, M_bind at 1.
  rewrite validateCartData_pure, Hv. reflexivity.
Qed.

Lemma validateCartData_typed rt cart w :
  absent_or_number (get cart "total") = true ->
  throws (validateCartData rt cart w).2 = spec_invalid_cart cart.
Proof.
  unfold validateCartData, spec_invalid_cart, le_zero, ToNumber. run_M.
  destruct cart as [| | b | x | s | l | fs]; try reflexivity.
  - destruct b; reflexivity.
  - destruct x as [| | | [] ? ?]; reflexivity.
  - destruct s; reflexivity.
  - unfold get. generalize (assoc "total" fs) (assoc "items" fs).
    intros t i Ht.
    destruct t as [| | | x | | |]; try discriminate; try reflexivity.
    destruct x as [sx | sx | | sx m e]; try discriminate; try reflexivity.
    + destruct sx; [reflexivity |].
      destruct i as [| | | | | [|] |]; reflexivity.
    + destruct sx; [reflexivity |].
      destruct i as [| | | | | [|] |]; reflexivity.
Qed.

Lemma validateCartData_invalid rt cart w :
  spec_invalid_cart cart = true ->
  throws (validateCartData rt cart w).2 = true.
Proof.
  unfold validateCartData, spec_invalid_cart, le_zero, ToNumber. run_M.
  destruct cart as [| | b | x | s | l | fs]; try reflexivity.
  - destruct b; reflexivity.
  - destruct x as [| | | [] ? ?]; reflexivity.
  - destruct s; reflexivity.
  - unfold get. generalize (assoc "total" fs) (assoc "items" fs).
    intros t i.
    destruct t as [| | b | x | s | l | fs']; try reflexivity.
    + destruct b; [| reflexivity].
      destruct i as [| | | | | [|] |]; try reflexivity; discriminate.
    + destruct x as [sx | sx | | sx m e]; try reflexivity.
      * destruct sx; [reflexivity |].
        destruct i as [| | | | | [|] |]; try reflexivity; discriminate.
      * destruct sx; [reflexivity |].
        destruct i as [| | | | | [|] |]; try reflexivity; discriminate.
    + destruct (truthy (Str s)); [| reflexivity]. cbn [negb orb].
      destruct (ToNumber_coerced rt (Str s)) as [e | x]; [reflexivity |].
      cbn. destruct (SFleb x pos_zero); [reflexivity |].
      destruct i as [| | | | | [|] |]; try reflexivity; discriminate.
    + cbn. destruct (ToNumber_coerced rt (Arr l)) as [e | x]; [reflexivity |].
      cbn. destruct (SFleb x pos_zero); [reflexivity |].
      destruct i as [| | | | | [|] |]; try reflexivity; discriminate.
    + cbn. destruct (ToNumber_coerced rt (Obj fs')) as [e | x];
        [reflexivity |].
      cbn. destruct (SFleb x pos_zero); [reflexivity |].
      destruct i as [| | | | | [|] |]; try reflexivity; discriminate.
Qed.

Lemma validateCartData_falsy_total rt cart w :
  truthy (get cart "total") = false ->
  throws (validateCartData rt cart w).2 = true.
Proof.
  intros Ht. unfold validateCartData. run_M. rewrite Ht.
  rewrite orb_true_r. reflexivity.
Qed.

(** C3 as stated fails: a total that is neither absent nor a number at most
    zero is still rejected when it is falsy.  The total false of a JSON
    body, and the total NaN of a direct call, are rejected with well-formed
    items. *)
Lemma validateCartData_rejects_false_total :
  spec_invalid_cart cart_false_total = false
  /\ validateCartData sample_runtime cart_false_total initial_world
     = (initial_world, inl (Error total_message))
  /\ spec_invalid_cart cart_nan_total = false
  /\ validateCartData sample_runtime cart_nan_total initial_world
     = (initial_world, inl (Error total_message)).
Proof. repeat split. Qed.

(** C3 (amended): validateCartData has no effect on the world; it throws
    whenever the cart is absent, or the total is absent or at most zero, or
    the items are not a non-empty sequence, whatever else the cart holds; on
    carts whose total is absent or a number it throws only then; it also
    throws on every other falsy total; and whenever it throws, createOrder
    rejects in the same world, so without any call to the payment
    authority. *)
Theorem validateCartData_gate rt E cart w :
  (validateCartData rt cart w).1 = w
  /\ (spec_invalid_cart cart = true ->
      throws (validateCartData rt cart w).2 = true)
  /\ (absent_or_number (get cart "total") = true ->
      throws (validateCartData rt cart w).2 = spec_invalid_cart cart)
  /\ (truthy (get cart "total") = false ->
      throws (validateCartData rt cart w).2 = true)
  /\ (throws (validateCartData rt cart w).2 = true ->
      exists e, createOrder rt E cart w = (w, inl e)
                /\ calls_since w (createOrder rt E cart w).1 = []).
Proof.
  split; [apply validateCartData_world |].
  split; [apply validateCartData_invalid |].
  split; [apply validateCartData_typed |].
  split; [apply validateCartData_falsy_total |].
  intros Hthrows.
  destruct (validateCartData rt cart w).2 as [e | u] eqn:Hv; [| discriminate].
  rewrite (createOrder_rejects_invalid rt E cart w e Hv).
  eexists. split; [reflexivity |].
  unfold calls_since. simpl. apply drop_all.
Qed.

Lemma validateCartData_gate_witness :
  spec_invalid_cart cart_string_total = true
  /\ throws (validateCartData sample_runtime cart_string_total
               initial_world).2 = true
  /\ (exists e, createOrder sample_runtime gateway_down cart_string_total
                  initial_world = (initial_world, inl e)
                /\ calls_since initial_world
                     (createOrder sample_runtime gateway_down
                        cart_string_total initial_world).1 = [])
  /\ absent_or_number (get cart_empty "total") = true
  /\ throws (validateCartData sample_runtime cart_empty initial_world).2
     = spec_invalid_cart cart_empty
  /\ truthy (get cart_false_total "total") = false
  /\ throws (validateCartData sample_runtime cart_false_total
               initial_world).2 = true.
Proof.
  pose proof (validateCartData_gate sample_runtime gateway_down
                cart_string_total initial_world)
    as (_ & Hinvalid & _ & _ & Hgate).
  pose proof (validateCartData_gate sample_runtime gateway_down cart_empty
                initial_world) as (_ & _ & Htyped & _).
  pose proof (validateCartData_gate sample_runtime gateway_down
                cart_false_total initial_world) as (_ & _ & _ & Hfalsy & _).
  split; [reflexivity |].
  split; [apply Hinvalid; reflexivity |].
  split; [apply Hgate, Hinvalid; reflexivity |].
  split; [reflexivity |].
  split; [apply Htyped; reflexivity |].
  split; [reflexivity |].
  apply Hfalsy. reflexivity.
Defined.

Lemma calls_since_refl w : calls_since w w = [].
Proof. unfold calls_since. apply drop_all. Qed.

Lemma calls_since_record ev w : calls_since w (record_call ev w) = [ev].
Proof. unfold calls_since. simpl. apply drop_app_length. Qed.

(** C4: captureOrder called with an absent or empty order id throws
    'Order ID is required' without any call to the payment authority, and
    the capture route answers 400 for an empty id. *)
Theorem captureOrder_requires_id rt E orderID w :
  empty_or_absent_id orderID = true ->
  captureOrder rt E orderID w = (w, inl (Error "Order ID is required"))
  /\ calls_since w (captureOrder rt E orderID w).1 = []
  /\ post_api_orders_capture rt E "" w
     = (w, {| status := 400; body := ErrorBody "Order ID is required" None |}).
Proof.
  intros Hid.
  assert (Hfalsy : truthy orderID = false).
  { destruct orderID as [| | | | s | |]; try discriminate; try reflexivity.
    destruct s; [reflexivity | discriminate]. }
  unfold captureOrder. rewrite Hfalsy. simpl.
  repeat split. apply calls_since_refl.
Qed.

Lemma captureOrder_requires_id_witness :
  empty_or_absent_id (Str "") = true
  /\ captureOrder sample_runtime all_up (Str "") initial_world
     = (initial_world, inl (Error "Order ID is required")).
Proof.
  split; [reflexivity |].
  apply (captureOrder_requires_id sample_runtime all_up (Str "") initial_world).
  reflexivity.
Defined.

(** What [createOrder] does to the world: nothing, or one call to the SDK
    with the request built from the cart. *)
Lemma createOrder_world rt E cart w :
  (createOrder rt E cart w).1 = w
  \/ exists c, build_collect rt cart = inr c
               /\ (validateCartData rt cart w).2 = inr ()
               /\ (createOrder rt E cart w).1 = record_call (CallOrdersCreate c) w.
Proof.
  destruct (validateCartData rt cart w).2 as [e | []] eqn:Hv.
  - left. rewrite (createOrder_rejects_invalid rt E cart w e Hv). reflexivity.
  - rewrite (createOrder_after_validation rt E cart w Hv).
    unfold request_authorization, rethrow_create, await_reply. run_M.
    destruct (build_collect rt cart) as [e | c].
    + left. destruct (is_ApiError e); reflexivity.
    + right. exists c. split; [reflexivity |]. split; [reflexivity |].
      destruct (ordersCreate E c) as [b code | e].
      * destruct (JSON_parse rt b) as [e | j]; [| reflexivity].
        destruct (is_ApiError e); reflexivity.
      * destruct (is_ApiError e); reflexivity.
Qed.

Lemma createOrder_gateway_rejects rt E cart w c e :
  (validateCartData rt cart w).2 = inr () ->
  build_collect rt cart = inr c ->
  ordersCreate E c = Reject e ->
  createOrder rt E cart w
  = (record_call (CallOrdersCreate c) w,
     inl (if is_ApiError e
          then Error ("PayPal API Error: " +:+ message e) else e)).
Proof.
  intros Hv Hc Hreject.
  rewrite (createOrder_after_validation rt E cart w Hv).
  unfold request_authorization, rethrow_create, await_reply. run_M.
  rewrite Hc, Hreject. destruct (is_ApiError e); reflexivity.
Qed.

Lemma validated_cart_truthy rt cart w :
  (validateCartData rt cart w).2 = inr () -> truthy cart = true.
Proof.
  unfold validateCartData. run_M.
  destruct (truthy cart); [reflexivity | discriminate].
Qed.

Lemma post_api_orders_world rt E req_body w :
  (post_api_orders rt E req_body w).1
  = (if truthy (get req_body "cart")
     then (createOrder rt E (get req_body "cart") w).1 else w).
Proof.
  unfold post_api_orders, respond.
  destruct (truthy (get req_body "cart")); simpl; [| reflexivity].
  destruct (createOrder rt E (get req_body "cart") w) as [w' [e | [j code]]];
    reflexivity.
Qed.

Lemma post_api_orders_frame rt E req_body w :
  let w' := (post_api_orders rt E req_body w).1 in
  orders w' = orders w
  /\ auto_increment w' = auto_increment w
  /\ forallb is_gateway_call (calls_since w w') = true.
Proof.
  cbv zeta. rewrite post_api_orders_world.
  destruct (truthy (get req_body "cart")).
  - destruct (createOrder_world rt E (get req_body "cart") w)
      as [-> | (c & _ & _ & ->)].
    + rewrite calls_since_refl. repeat split.
    + rewrite calls_since_record. repeat split.
  - rewrite calls_since_refl. repeat split.
Qed.

Lemma captureOrder_world rt E orderID w :
  orders (captureOrder rt E orderID w).1 = orders w
  /\ auto_increment (captureOrder rt E orderID w).1 = auto_increment w.
Proof.
  unfold captureOrder, await_reply. run_M.
  destruct (negb (truthy orderID)); [split; reflexivity |].
  destruct (ordersCapture E _) as [b code | e].
  - destruct (JSON_parse rt b) as [e | j]; [| split; reflexivity].
    destruct (is_ApiError e); split; reflexivity.
  - destruct (is_ApiError e); split; reflexivity.
Qed.

Lemma post_api_orders_capture_frame rt E orderID w :
  orders (post_api_orders_capture rt E orderID w).1 = orders w
  /\ auto_increment (post_api_orders_capture rt E orderID w).1
     = auto_increment w.
Proof.
  unfold post_api_orders_capture, respond.
  destruct (negb (truthy (Str orderID))); [split; reflexivity |].
  pose proof (captureOrder_world rt E (Str orderID) w) as [Ho Ha].
  destruct (captureOrder rt E (Str orderID) w) as [w' [e | [j code]]];
    split; assumption.
Qed.

(** C5: the routes of the gateway flow never touch the orders table, and
    POST /api/orders calls nothing but the payment authority; when the
    authority (or the transport) rejects the call, the request ends there,
    after that single call, with a 500 response carrying the gateway error
    text. *)
Theorem gateway_flow_never_persists rt E req_body w :
  let w' := (post_api_orders rt E req_body w).1 in
  orders w' = orders w
  /\ auto_increment w' = auto_increment w
  /\ forallb is_gateway_call (calls_since w w') = true
  /\ (forall orderID,
         orders (post_api_orders_capture rt E orderID w).1 = orders w)
  /\ forall c e,
       (validateCartData rt (get req_body "cart") w).2 = inr () ->
       build_collect rt (get req_body "cart") = inr c ->
       ordersCreate E c = Reject e ->
       post_api_orders rt E req_body w
       = (record_call (CallOrdersCreate c) w,
          {| status := 500;
             body := ErrorBody "Failed to create order"
                       (Some (gateway_error_text e)) |}).
Proof.
  cbv zeta.
  destruct (post_api_orders_frame rt E req_body w) as (Ho & Ha & Hcalls).
  do 3 (split; [assumption |]).
  split; [intros orderID; apply post_api_orders_capture_frame |].
  intros c e Hv Hc Hreject. unfold post_api_orders.
  rewrite (validated_cart_truthy _ _ _ Hv). simpl.
  rewrite (createOrder_gateway_rejects rt E _ w c e Hv Hc Hreject).
  unfold respond, gateway_error_text.
  destruct (is_ApiError e); reflexivity.
Qed.

Lemma gateway_flow_never_persists_witness :
  (validateCartData sample_runtime cart_6 initial_world).2 = inr ()
  /\ (exists c, build_collect sample_runtime cart_6 = inr c
               /\ ordersCreate gateway_down c
                  = Reject (ApiError "UNPROCESSABLE_ENTITY"))
  /\ (post_api_orders sample_runtime gateway_down
        (Obj [("cart", cart_6)]) initial_world).2
     = {| status := 500;
          body := ErrorBody "Failed to create order"
                    (Some "PayPal API Error: UNPROCESSABLE_ENTITY") |}.
Proof.
  split; [reflexivity |].
  split; [eexists; split; reflexivity |].
  pose proof (gateway_flow_never_persists sample_runtime gateway_down
                (Obj [("cart", cart_6)]) initial_world)
    as (_ & _ & _ & _ & H).
  rewrite (H _ (ApiError "UNPROCESSABLE_ENTITY") eq_refl eq_refl eq_refl).
  reflexivity.
Defined.

(** *** The request built by createOrder *)

Lemma call_toFixed2_inr rt v s :
  call_toFixed2 rt v = inr s -> exists x, v = Num x /\ s = toFixed2 rt x.
Proof.
  destruct v; try discriminate. intros [= <-]. eauto.
Qed.

Lemma build_item_shape rt item i :
  build_item rt item = inr i -> item_breakdown rt item i.
Proof.
  unfold build_item, get_prop. run_M.
  destruct (nullish item); [discriminate |].
  destruct (call_toFixed2 rt (get item "price")) as [e | s] eqn:Hp;
    [discriminate |].
  apply call_toFixed2_inr in Hp as (p & Hp & ->).
  intros [= <-]. repeat split. exists p. repeat split; [assumption |].
  apply toFixed2_two_decimal_places.
Qed.

Lemma build_items_shape rt l reqs :
  build_items rt l = inr reqs -> Forall2 (item_breakdown rt) l reqs.
Proof.
  revert reqs. induction l as [| item l IH]; intros reqs; simpl.
  - intros [= <-]. constructor.
  - run_M. destruct (build_item rt item) as [e | i] eqn:Hi; [discriminate |].
    destruct (build_items rt l) as [e | rest]; [discriminate |].
    intros [= <-]. constructor; [apply build_item_shape, Hi | apply IH].
    reflexivity.
Qed.

Lemma build_collect_shape rt cart c :
  build_collect rt cart = inr c -> request_shape rt cart c.
Proof.
  unfold build_collect. run_M.
  destruct (call_toFixed2 rt (get cart "total")) as [e | s] eqn:Ht;
    [discriminate |].
  apply call_toFixed2_inr in Ht as (total & Ht & ->).
  destruct (get cart "items") as [| | | | | l |] eqn:Hitems;
    try discriminate.
  destruct (build_items rt l) as [e | reqs] eqn:Hreqs; [discriminate |].
  intros [= <-]. repeat split. exists total, l. repeat split; try assumption.
  - apply toFixed2_two_decimal_places.
  - apply build_items_shape, Hreqs.
Qed.

Lemma build_items_priced rt l :
  forallb priced_item l = true -> exists reqs, build_items rt l = inr reqs.
Proof.
  induction l as [| item l IH]; simpl; [eauto |].
  intros [Hitem Hl]%andb_prop. destruct (IH Hl) as [reqs Hreqs].
  unfold priced_item in Hitem. apply andb_prop in Hitem as [Hnn Hnum].
  apply negb_true_iff in Hnn.
  unfold build_item, get_prop. run_M. rewrite Hnn, Hreqs.
  destruct (get item "price"); try discriminate. simpl. eauto.
Qed.

Lemma createOrder_sent rt E cart w c :
  CallOrdersCreate c ∈ calls_since w (createOrder rt E cart w).1 ->
  build_collect rt cart = inr c.
Proof.
  destruct (createOrder_world rt E cart w) as [-> | (c' & Hc' & _ & ->)].
  - rewrite calls_since_refl. intros H. inversion H.
  - rewrite calls_since_record. intros H%list_elem_of_singleton.
    congruence.
Qed.

(** C9 (amended): every request createOrder sends carries the intent, the
    currency USD, the total printed by toFixed(2) and, item by item, the
    name, the quantity and the unit price printed by toFixed(2); the printed
    amount has exactly two decimals as soon as the number is finite and
    below 10^21 in magnitude.  For a cart that passes validation, has a
    numeric total and a numeric price on every item, such a request is
    sent. *)
Theorem createOrder_request rt E cart w :
  (forall c,
      CallOrdersCreate c ∈ calls_since w (createOrder rt E cart w).1 ->
      request_shape rt cart c)
  /\ (forall total l,
         (validateCartData rt cart w).2 = inr () ->
         get cart "total" = Num total ->
         get cart "items" = Arr l ->
         forallb priced_item l = true ->
         exists c, calls_since w (createOrder rt E cart w).1
                   = [CallOrdersCreate c]).
Proof.
  split.
  - intros c Hc. apply build_collect_shape, (createOrder_sent rt E cart w c Hc).
  - intros total l Hv Ht Hitems Hpriced.
    destruct (build_items_priced rt l Hpriced) as [reqs Hreqs].
    destruct (createOrder_world rt E cart w) as [Hw | (c & _ & _ & ->)].
    + exfalso. revert Hw.
      rewrite (createOrder_after_validation rt E cart w Hv).
      unfold request_authorization, build_collect, rethrow_create,
        await_reply. run_M.
      rewrite Ht, Hitems, Hreqs. simpl.
      set (c := {| intent := _ |}).
      assert (Hne : record_call (CallOrdersCreate c) w <> w).
      { intros Heq. apply (f_equal (fun x => length (trace x))) in Heq.
        simpl in Heq. rewrite length_app in Heq. simpl in Heq. lia. }
      destruct (ordersCreate E c) as [b code | e].
      * destruct (JSON_parse rt b) as [e | j]; [| exact Hne].
        destruct (is_ApiError e); exact Hne.
      * destruct (is_ApiError e); exact Hne.
    + exists c. apply calls_since_record.
Qed.

Lemma createOrder_request_witness :
  (validateCartData sample_runtime cart_6 initial_world).2 = inr ()
  /\ get cart_6 "total" = Num (number 6)
  /\ get cart_6 "items" = Arr [item_A]
  /\ forallb priced_item [item_A] = true
  /\ exists c, calls_since initial_world
                 (createOrder sample_runtime all_up cart_6 initial_world).1
               = [CallOrdersCreate c]
               /\ request_shape sample_runtime cart_6 c.
Proof.
  pose proof (createOrder_request sample_runtime all_up cart_6 initial_world)
    as [Hshape Hsent].
  do 4 (split; [reflexivity |]).
  destruct (Hsent (number 6) [item_A] eq_refl eq_refl eq_refl eq_refl)
    as [c Hc].
  exists c. split; [exact Hc |].
  apply Hshape. rewrite Hc. apply list_elem_of_singleton. reflexivity.
Defined.

(** C9 as stated fails: the total 1e999 of a JSON body is parsed to
    Infinity, passes validation, and is sent as the text Infinity. *)
Lemma createOrder_overflow_total_not_fixed :
  is_double infinity = true
  /\ (validateCartData sample_runtime cart_overflow initial_world).2 = inr ()
  /\ exists c, calls_since initial_world
                 (createOrder sample_runtime all_up cart_overflow
                    initial_world).1 = [CallOrdersCreate c]
               /\ amount_value c = "Infinity"
               /\ two_decimal_places (amount_value c) = false.
Proof.
  split; [reflexivity |]. split; [reflexivity |].
  eexists. split; [reflexivity |]. split; reflexivity.
Qed.

(** From 10^21 on, toFixed hands the number over to Number::toString. *)
Lemma toFixed2_1e21 rt :
  is_double (number (10 ^ 21)) = true
  /\ toFixed2 rt (number (10 ^ 21)) = Number_toString rt (number (10 ^ 21)).
Proof. split; reflexivity. Qed.

(** *** Items are not validated *)

Lemma build_item_cases rt item :
  build_item rt item = type_error rt
  \/ exists i, build_item rt item = inr i /\ priced_item item = true.
Proof.
  unfold build_item, get_prop, priced_item, type_error. run_M.
  destruct (nullish item); [left; reflexivity |].
  destruct (get item "price"); simpl; eauto.
Qed.

Lemma build_items_unpriced rt l :
  forallb priced_item l = false -> build_items rt l = type_error rt.
Proof.
  induction l as [| item l IH]; simpl; [discriminate |].
  intros Hl. run_M.
  destruct (build_item_cases rt item) as [-> | (i & -> & Hp)];
    [reflexivity |].
  rewrite Hp in Hl. simpl in Hl. rewrite (IH Hl). reflexivity.
Qed.

Lemma build_items_forward rt l :
  forallb priced_item l = true ->
  build_items rt l = inr (map (forward_item rt) l).
Proof.
  induction l as [| item l IH]; simpl; [reflexivity |].
  intros [Hitem Hl]%andb_prop. rewrite (IH Hl).
  unfold priced_item in Hitem. apply andb_prop in Hitem as [Hnn Hnum].
  apply negb_true_iff in Hnn.
  unfold build_item, get_prop, forward_item. run_M. rewrite Hnn.
  destruct (get item "price"); try discriminate. reflexivity.
Qed.

(** C10: a cart with a positive numeric total and a non-empty items array
    passes validation whatever the items are.  Its items then reach the
    request construction as they are: when each has a numeric price,
    createOrder sends one request whose breakdown is the cart's items in
    order, name and quantity copied unexamined; when one is null or has no
    numeric price, it is the construction, not the validation, that throws
    (a TypeError, with no call to the authority). *)
Theorem validateCartData_ignores_items rt E cart x item rest w :
  get cart "total" = Num x ->
  positive_number x = true ->
  get cart "items" = Arr (item :: rest) ->
  validateCartData rt cart w = (w, inr ())
  /\ (forallb priced_item (item :: rest) = true ->
      let collect :=
        {| intent := "CAPTURE"; amount_currencyCode := "USD";
           amount_value := toFixed2 rt x;
           items := map (forward_item rt) (item :: rest);
           create_prefer := "return=minimal" |} in
      build_collect rt cart = inr collect
      /\ calls_since w (createOrder rt E cart w).1
         = [CallOrdersCreate collect])
  /\ (forallb priced_item (item :: rest) = false ->
      build_items rt (item :: rest) = inl (TypeError (type_error_text rt))
      /\ createOrder rt E cart w = (w, inl (TypeError (type_error_text rt))))
  /\ createOrder rt E cart w
     = try_catch (request_authorization rt E cart) rethrow_create w
  /\ (forall it p,
         nullish it = false -> get it "price" = Num p ->
         build_item rt it
         = inr {| name := get it "productName";
                  quantity := get it "quantity";
                  unit_amount_currency_code := "USD";
                  unit_amount_value := toFixed2 rt p |})
  /\ (forall it,
         is_number (get it "price") = false ->
         throws (build_item rt it) = true).
Proof.
  intros Ht Hpos Hitems.
  assert (Hv : validateCartData rt cart w = (w, inr ())).
  { unfold validateCartData, le_zero, ToNumber. run_M.
    destruct cart as [| | | | | | fs]; try discriminate.
    rewrite Ht, Hitems.
    destruct x as [[] | [] | | [] m e]; try discriminate; reflexivity. }
  assert (Hafter : createOrder rt E cart w
                   = try_catch (request_authorization rt E cart)
                       rethrow_create w)
    by (apply createOrder_after_validation; rewrite Hv; reflexivity).
  split; [exact Hv |].
  split; [| split; [| split; [exact Hafter | split]]].
  - intros Hpriced. cbv zeta.
    assert (Hbuild : build_collect rt cart
                     = inr {| intent := "CAPTURE";
                              amount_currencyCode := "USD";
                              amount_value := toFixed2 rt x;
                              items := map (forward_item rt) (item :: rest);
                              create_prefer := "return=minimal" |}).
    { unfold build_collect. run_M. rewrite Ht, Hitems.
      rewrite (build_items_forward rt _ Hpriced). reflexivity. }
    split; [exact Hbuild |].
    rewrite Hafter.
    unfold request_authorization, rethrow_create, await_reply. run_M.
    rewrite Hbuild.
    destruct (ordersCreate E _) as [b code | e].
    + destruct (JSON_parse rt b) as [e | j];
        [destruct (is_ApiError e) |]; apply calls_since_record.
    + destruct (is_ApiError e); apply calls_since_record.
  - intros Hunpriced.
    pose proof (build_items_unpriced rt _ Hunpriced) as Hitems_fail.
    split; [exact Hitems_fail |].
    rewrite Hafter.
    unfold request_authorization, rethrow_create, build_collect. run_M.
    rewrite Ht, Hitems, Hitems_fail. reflexivity.
  - intros it p Hnn Hp. unfold build_item, get_prop. run_M.
    rewrite Hnn, Hp. reflexivity.
  - intros it Hp. unfold build_item, get_prop. run_M.
    destruct (nullish it); [reflexivity |].
    destruct (get it "price"); try discriminate; reflexivity.
Qed.

Lemma validateCartData_ignores_items_witness :
  let unpriced :=
    Obj [("total", Num (number 6));
         ("items", Arr [Obj [("productName", Str "C")]])] in
  get cart_odd "total" = Num (number 6)
  /\ positive_number (number 6) = true
  /\ get cart_odd "items" = Arr [item_odd]
  /\ forallb priced_item [item_odd] = true
  /\ validateCartData sample_runtime cart_odd initial_world
     = (initial_world, inr ())
  /\ calls_since initial_world
       (createOrder sample_runtime all_up cart_odd initial_world).1
     = [CallOrdersCreate
          {| intent := "CAPTURE"; amount_currencyCode := "USD";
             amount_value := "6.00";
             items := [{| name := Undefined; quantity := Num (number (-1));
                          unit_amount_currency_code := "USD";
                          unit_amount_value := "3.00" |}];
             create_prefer := "return=minimal" |}]
  /\ forallb priced_item [Obj [("productName", Str "C")]] = false
  /\ validateCartData sample_runtime unpriced initial_world
     = (initial_world, inr ())
  /\ createOrder sample_runtime all_up unpriced initial_world
     = (initial_world, inl (TypeError "TypeError")).
Proof.
  cbv zeta.
  pose proof (validateCartData_ignores_items sample_runtime all_up cart_odd
                (number 6) item_odd [] initial_world
                eq_refl eq_refl eq_refl) as (Hv & Hsent & _).
  pose proof (validateCartData_ignores_items sample_runtime all_up
                (Obj [("total", Num (number 6));
                      ("items", Arr [Obj [("productName", Str "C")]])])
                (number 6) (Obj [("productName", Str "C")]) [] initial_world
                eq_refl eq_refl eq_refl) as (Hv' & _ & Hthrown & _).
  do 4 (split; [reflexivity |]).
  split; [exact Hv |].
  split; [apply (Hsent eq_refl) |].
  split; [reflexivity |].
  split; [exact Hv' |].
  apply (Hthrown eq_refl).
Defined.

(** ** The store-first flow *)

Lemma placeOrder_eq rt E req_body w :
  placeOrder rt E req_body w
  = if incomplete req_body then (w, incomplete_response)
    else
      let values := order_values rt req_body in
      let w1 := record_call (CallQuery (InsertOrder values)) w in
      match query_error E with
      | Some err => (w1, insert_failed_response err)
      | None =>
          let w2 := insert_row values w1 in
          match build_orderDetails rt (get req_body "user")
                  (get req_body "cartItems") (get req_body "totalAmount") with
          | inl e => (w2, notification_failed_response e)
          | inr d =>
              let w3 := record_call (CallSendOrderNotification d) w2 in
              match SendOrderNotification E d with
              | Some e => (w3, notification_failed_response e)
              | None => (w3, created_response (auto_increment w))
              end
          end
      end.
Proof.
  unfold placeOrder, db_query, notify_and_respond. run_M.
  destruct (incomplete req_body); [reflexivity |].
  destruct (query_error E) as [err |]; [reflexivity |].
  cbn [run_query insertId].
  destruct (build_orderDetails rt _ _ _) as [e | d]; [reflexivity |].
  destruct (SendOrderNotification E d); reflexivity.
Qed.

(** C1 as stated fails: with the mail module down the order is inserted
    under id 1, the notification is attempted, and the answer is a 500
    error body without the order id. *)
Lemma placeOrder_mail_down_not_created :
  let w' := (placeOrder sample_runtime mail_down order_body initial_world).1 in
  let r := (placeOrder sample_runtime mail_down order_body initial_world).2 in
  orders w' !! 1 = Some (order_values sample_runtime order_body)
  /\ (exists d, last (trace w') = Some (CallSendOrderNotification d)
                /\ SendOrderNotification mail_down d
                   = Some (Rejection "ECONNREFUSED"))
  /\ status r <> 201
  /\ body r = ErrorBody
                "Commande créée, mais échec de l'envoi de la notification."
                (Some "ECONNREFUSED").
Proof.
  cbv zeta. rewrite placeOrder_eq.
  split; [reflexivity |].
  split; [eexists; split; reflexivity |].
  split; [discriminate | reflexivity].
Qed.

(** C1 (amended): when SendOrderNotification rejects after the row was
    inserted, placeOrder answers 500 with the error 'Commande créée, mais
    échec de l'envoi de la notification.' and the notification error's
    message as details; the row stays in the table under the id the insert
    assigned. *)
Theorem placeOrder_notification_failure rt E req_body w d e :
  incomplete req_body = false ->
  query_error E = None ->
  build_orderDetails rt (get req_body "user") (get req_body "cartItems")
    (get req_body "totalAmount") = inr d ->
  SendOrderNotification E d = Some e ->
  (placeOrder rt E req_body w).2 = notification_failed_response e
  /\ orders (placeOrder rt E req_body w).1
     = <[auto_increment w := order_values rt req_body]> (orders w).
Proof.
  intros Hc Hq Hd He. rewrite placeOrder_eq, Hc, Hq. cbv zeta.
  rewrite Hd, He. split; reflexivity.
Qed.

Lemma placeOrder_notification_failure_witness :
  incomplete order_body = false
  /\ query_error mail_down = None
  /\ (placeOrder sample_runtime mail_down order_body initial_world).2
     = notification_failed_response (Rejection "ECONNREFUSED").
Proof.
  do 2 (split; [reflexivity |]).
  eapply (placeOrder_notification_failure sample_runtime mail_down order_body
            initial_world _ (Rejection "ECONNREFUSED")); reflexivity.
Defined.

(** C6: a notification is attempted only once the insert has succeeded, it
    is the last call of the request, and whatever its outcome the table is
    the one the insert produced: no delete or other write follows. *)
Theorem notification_after_persistence rt E req_body w d :
  CallSendOrderNotification d
    ∈ calls_since w (placeOrder rt E req_body w).1 ->
  query_error E = None
  /\ calls_since w (placeOrder rt E req_body w).1
     = [CallQuery (InsertOrder (order_values rt req_body));
        CallSendOrderNotification d]
  /\ orders (placeOrder rt E req_body w).1
     = <[auto_increment w := order_values rt req_body]> (orders w)
  /\ (forall e, SendOrderNotification E d = Some e ->
                (placeOrder rt E req_body w).2
                = notification_failed_response e).
Proof.
  rewrite placeOrder_eq.
  destruct (incomplete req_body).
  { simpl. rewrite calls_since_refl. intros H. inversion H. }
  cbv zeta. set (values := order_values rt req_body).
  assert (Hone : forall ev, calls_since w (record_call ev w) = [ev])
    by (intros; apply calls_since_record).
  destruct (query_error E) as [err |].
  { simpl. rewrite Hone. intros H%list_elem_of_singleton. discriminate. }
  destruct (build_orderDetails rt _ _ _) as [e | d'].
  { simpl. unfold insert_row, calls_since. simpl.
    rewrite drop_app_length. intros H%list_elem_of_singleton. discriminate. }
  assert (Hin : CallSendOrderNotification d
                  ∈ [CallQuery (InsertOrder values);
                     CallSendOrderNotification d'] -> d = d').
  { intros H. apply elem_of_cons in H as [H | H]; [discriminate |].
    apply list_elem_of_singleton in H. congruence. }
  destruct (SendOrderNotification E d') as [e |] eqn:Hsend;
    unfold calls_since; simpl; rewrite <- app_assoc, drop_app_length; simpl;
    intros <-%Hin; (do 3 (split; [reflexivity |])); intros e' He';
    congruence.
Qed.

Lemma notification_after_persistence_witness :
  (exists d, CallSendOrderNotification d
               ∈ calls_since initial_world
                   (placeOrder sample_runtime mail_down order_body
                      initial_world).1)
  /\ orders (placeOrder sample_runtime mail_down order_body initial_world).1
     = <[1 := order_values sample_runtime order_body]> ∅.
Proof.
  assert (Hin : CallSendOrderNotification
                  {| clientName := Str "Ada"; productName := "A";
                     details_totalAmount := Num (number 6);
                     lieu := "Akwa, Douala";
                     details_phoneNumber := Str "600000000" |}
                  ∈ calls_since initial_world
                      (placeOrder sample_runtime mail_down order_body
                         initial_world).1).
  { apply elem_of_cons. right. apply list_elem_of_singleton. reflexivity. }
  split; [eexists; exact Hin |].
  apply (notification_after_persistence sample_runtime mail_down order_body
           initial_world _ Hin).
Defined.

(** *** updateOrder *)

Lemma truthy_Str id : id <> "" -> truthy (Str id) = true.
Proof.
  intros Hne. simpl. apply negb_true_iff, String.eqb_neq, Hne.
Qed.

(** C7: for a supplied id and status and a working store, updateOrder on an
    id that names no row answers 404 and leaves the table as it was; on an
    id that names a row it answers 200 and the row then holds the supplied
    value as order_status, whatever status it had, with its other columns
    as they were. *)
Theorem updateOrder_status rt E id req_body w :
  id <> "" ->
  truthy (get req_body "orderStatus") = true ->
  query_error E = None ->
  let s := get req_body "orderStatus" in
  let w1 := record_call (CallQuery (UpdateStatus s id)) w in
  ((forall k, sql_id rt id = Some k -> orders w !! k = None) ->
   updateOrder rt E id req_body w
   = (w1, {| status := 404; body := ErrorBody "Order not found" None |})
   /\ orders (updateOrder rt E id req_body w).1 = orders w)
  /\ (forall k r,
         sql_id rt id = Some k -> orders w !! k = Some r ->
         let stored :=
           {| email := email r; username := username r; ville := ville r;
              quartier := quartier r; phoneNumber := phoneNumber r;
              paymentMethod := paymentMethod r;
              totalAmount := totalAmount r;
              order_status := get req_body "orderStatus";
              cartItems := cartItems r |} in
         updateOrder rt E id req_body w
         = (set_orders (<[k := stored]> (orders w)) w1,
            {| status := 200;
               body := UpdatedBody "Order updated successfully" s |})
         /\ orders (updateOrder rt E id req_body w).1 !! k = Some stored
         /\ order_status <$> orders (updateOrder rt E id req_body w).1 !! k
            = Some (get req_body "orderStatus")).
Proof.
  intros Hid Hs Hq. cbv zeta.
  unfold updateOrder, db_query. run_M.
  rewrite (truthy_Str id Hid), Hs, Hq. cbn [negb].
  split.
  - intros Hnone. unfold run_query.
    destruct (sql_id rt id) as [k |] eqn:Hk; simpl.
    + rewrite (Hnone k eq_refl). simpl. split; reflexivity.
    + split; reflexivity.
  - intros k r Hk Hr. unfold run_query. rewrite Hk. simpl.
    rewrite Hr. simpl. rewrite lookup_insert_eq.
    split; [reflexivity |]. split; reflexivity.
Qed.

Lemma updateOrder_status_witness :
  let w := (placeOrder sample_runtime all_up order_body initial_world).1 in
  let captured := Obj [("orderStatus", Str "captured")] in
  "1" <> ""
  /\ truthy (get captured "orderStatus") = true
  /\ query_error all_up = None
  /\ sql_id sample_runtime "1" = Some 1
  /\ order_status <$> orders w !! 1 = Some (Str "pending")
  /\ (updateOrder sample_runtime all_up "1" captured w).2
     = {| status := 200;
          body := UpdatedBody "Order updated successfully" (Str "captured") |}
  /\ order_status
       <$> orders (updateOrder sample_runtime all_up "1" captured w).1 !! 1
     = Some (Str "captured")
  /\ sql_id sample_runtime "7" = Some 7
  /\ orders w !! 7 = None
  /\ (updateOrder sample_runtime all_up "7" captured w).2
     = {| status := 404; body := ErrorBody "Order not found" None |}
  /\ orders (updateOrder sample_runtime all_up "7" captured w).1 = orders w.
Proof.
  cbv zeta.
  split; [discriminate |].
  do 4 (split; [reflexivity |]).
  pose proof (updateOrder_status sample_runtime all_up "1"
                (Obj [("orderStatus", Str "captured")])
                (placeOrder sample_runtime all_up order_body initial_world).1
                ltac:(discriminate) eq_refl eq_refl) as [_ Hsome].
  destruct (Hsome 1 (order_values sample_runtime order_body)
              eq_refl eq_refl) as (Heq & _ & Hstatus).
  split; [rewrite Heq; reflexivity |].
  split; [exact Hstatus |].
  do 2 (split; [reflexivity |]).
  pose proof (updateOrder_status sample_runtime all_up "7"
                (Obj [("orderStatus", Str "captured")])
                (placeOrder sample_runtime all_up order_body initial_world).1
                ltac:(discriminate) eq_refl eq_refl) as [Hnone _].
  destruct Hnone as [Heq404 Hsame]; [intros k [= <-]; reflexivity |].
  split; [rewrite Heq404; reflexivity | exact Hsame].
Defined.

(** *** One request at a time *)

Lemma db_query_eq rt E q w :
  db_query rt E q w
  = match query_error E with
    | Some err => (record_call (CallQuery q) w, inl err)
    | None =>
        ((run_query rt q (record_call (CallQuery q) w)).1,
         inr (run_query rt q (record_call (CallQuery q) w)).2)
    end.
Proof.
  unfold db_query. run_M.
  destruct (query_error E); [reflexivity |].
  destruct (run_query rt q _); reflexivity.
Qed.

Lemma table_step_refl rt w : table_step rt w w.
Proof. apply table_same; reflexivity. Qed.

Lemma placeOrder_table_step rt E req_body w :
  table_step rt w (placeOrder rt E req_body w).1.
Proof.
  rewrite placeOrder_eq.
  destruct (incomplete req_body) eqn:Hc; [apply table_step_refl |].
  cbv zeta. destruct (query_error E); [apply table_same; reflexivity |].
  destruct (build_orderDetails rt _ _ _) as [e | d].
  - apply (table_insert rt _ _ req_body Hc); reflexivity.
  - destruct (SendOrderNotification E d);
      apply (table_insert rt _ _ req_body Hc); reflexivity.
Qed.

Lemma updateOrder_table_step rt E id req_body w :
  table_step rt w (updateOrder rt E id req_body w).1.
Proof.
  unfold updateOrder, respond. rewrite db_query_eq.
  destruct (negb (truthy (Str id))); [apply table_step_refl |].
  destruct (negb (truthy (get req_body "orderStatus")));
    [apply table_step_refl |].
  destruct (query_error E); [apply table_same; reflexivity |].
  unfold run_query.
  destruct (sql_id rt id) as [k |]; simpl;
    [| apply table_same; reflexivity].
  destruct (orders w !! k) as [r |] eqn:Hr; simpl;
    [| apply table_same; reflexivity].
  apply (table_update rt _ _ k r (get req_body "orderStatus") Hr);
    reflexivity.
Qed.

Lemma deleteOrder_table_step rt E id w :
  table_step rt w (deleteOrder rt E id w).1.
Proof.
  unfold deleteOrder, respond. rewrite db_query_eq.
  destruct (negb (truthy (Str id))); [apply table_step_refl |].
  destruct (query_error E); [apply table_same; reflexivity |].
  unfold run_query.
  destruct (sql_id rt id) as [k |]; simpl;
    [| apply table_same; reflexivity].
  destruct (orders w !! k) as [r |] eqn:Hr; simpl;
    [| apply table_same; reflexivity].
  apply (table_delete rt _ _ k); reflexivity.
Qed.

Lemma getAllOrder_table_step rt E w : table_step rt w (getAllOrder rt E w).1.
Proof.
  unfold getAllOrder, respond. rewrite db_query_eq.
  destruct (query_error E); apply table_same; reflexivity.
Qed.

Lemma getOrderById_table_step rt E id w :
  table_step rt w (getOrderById rt E id w).1.
Proof.
  unfold getOrderById, respond. rewrite db_query_eq.
  destruct (negb (truthy (Str id))); [apply table_step_refl |].
  destruct (query_error E); [apply table_same; reflexivity |].
  simpl. destruct (sql_id rt id ≫= _) as [r |]; apply table_same; reflexivity.
Qed.

Lemma handle_table_step rt E r w : table_step rt w (handle rt E r w).1.
Proof.
  destruct r as [b | i | b | | i | i b | i]; simpl.
  - pose proof (post_api_orders_frame rt E b w) as (Ho & Ha & _).
    apply table_same; assumption.
  - pose proof (post_api_orders_capture_frame rt E i w) as [Ho Ha].
    apply table_same; assumption.
  - apply placeOrder_table_step.
  - apply getAllOrder_table_step.
  - apply getOrderById_table_step.
  - apply updateOrder_table_step.
  - apply deleteOrder_table_step.
Qed.

(** *** Invariants of the orders table *)

Lemma order_values_complete rt req_body :
  incomplete req_body = false -> complete_row rt (order_values rt req_body).
Proof.
  unfold incomplete. intros Hc.
  repeat (apply orb_false_elim in Hc as [Hc ?]).
  repeat match goal with H : negb _ = false |- _ =>
    apply negb_false_iff in H end.
  unfold complete_row. simpl. repeat split; try assumption.
  destruct (get req_body "cartItems"); try discriminate. eauto.
Qed.

Lemma table_step_complete rt w w' :
  table_step rt w w' ->
  (forall k r, orders w !! k = Some r -> complete_row rt r) ->
  forall k r, orders w' !! k = Some r -> complete_row rt r.
Proof.
  intros [Ho _ | b Hc Ho _ | k0 r0 s Hr0 Ho _ | k0 Ho _] Hinv k r;
    rewrite Ho.
  - apply Hinv.
  - intros [[_ <-] | [_ Hr]]%lookup_insert_Some.
    + apply order_values_complete, Hc.
    + apply (Hinv k r Hr).
  - intros [[_ <-] | [_ Hr]]%lookup_insert_Some.
    + apply (Hinv k0 r0 Hr0).
    + apply (Hinv k r Hr).
  - intros [_ Hr]%lookup_delete_Some. apply (Hinv k r Hr).
Qed.

Lemma table_step_fresh_ids rt w w' :
  table_step rt w w' -> fresh_ids w -> fresh_ids w'.
Proof.
  unfold fresh_ids.
  intros [Ho Ha | b Hc Ho Ha | k0 r0 s Hr0 Ho Ha | k0 Ho Ha] Hinv k r;
    rewrite Ho, Ha.
  - apply Hinv.
  - intros [[<- _] | [_ Hr]]%lookup_insert_Some; [lia |].
    specialize (Hinv k r Hr). lia.
  - intros [[<- _] | [_ Hr]]%lookup_insert_Some.
    + apply (Hinv k0 r0 Hr0).
    + apply (Hinv k r Hr).
  - intros [_ Hr]%lookup_delete_Some. apply (Hinv k r Hr).
Qed.

Lemma serve_invariant rt (P : world -> Prop) :
  (forall w w', table_step rt w w' -> P w -> P w') ->
  forall reqs w, P w -> P (serve rt reqs w).
Proof.
  intros Hstep reqs. induction reqs as [| [E r] reqs IH]; intros w Hw.
  - exact Hw.
  - simpl. apply IH, (Hstep w), Hw. apply handle_table_step.
Qed.

Lemma serve_fresh_ids rt reqs : fresh_ids (serve rt reqs initial_world).
Proof.
  apply (serve_invariant rt fresh_ids (table_step_fresh_ids rt)).
  intros k r Hr. cbn [initial_world orders] in Hr.
    rewrite lookup_empty in Hr. discriminate.
Qed.

(** C2 as stated fails: a body with the amount -5 and no item passes the
    guard of placeOrder and is inserted. *)
Lemma placeOrder_persists_negative_total :
  let w := serve sample_runtime [(all_up, PlaceOrder order_body_negative)]
             initial_world in
  is_double (number (-5)) = true
  /\ exists r, orders w !! 1 = Some r
               /\ totalAmount r = Num (number (-5))
               /\ nonpositive_number (number (-5)) = true
               /\ cartItems r = JSON_stringify sample_runtime (Arr []).
Proof.
  cbv zeta. split; [reflexivity |].
  eexists. split; [reflexivity |]. repeat split.
Qed.

(** C2 (amended): placeOrder answers 400 before any query or other call
    when user, cartItems, totalAmount or paymentMethod is falsy or cartItems
    is not an array; hence, after any sequence of requests, every row of
    the table has a truthy totalAmount (never absent, never 0) and the
    serialization of an array as item snapshot. *)
Theorem persisted_orders_complete rt :
  (forall E req_body w,
      incomplete req_body = true ->
      placeOrder rt E req_body w = (w, incomplete_response))
  /\ (forall reqs k r,
         orders (serve rt reqs initial_world) !! k = Some r ->
         complete_row rt r).
Proof.
  split.
  - intros E b w Hc. rewrite placeOrder_eq, Hc. reflexivity.
  - intros reqs.
    apply (serve_invariant rt
             (fun w => forall k r, orders w !! k = Some r -> complete_row rt r)).
    + intros w w' Hstep. apply table_step_complete, Hstep.
    + intros k r Hr. cbn [initial_world orders] in Hr.
    rewrite lookup_empty in Hr. discriminate.
Qed.

Lemma persisted_orders_complete_witness :
  incomplete cart_6 = true
  /\ placeOrder sample_runtime all_up cart_6 initial_world
     = (initial_world, incomplete_response)
  /\ complete_row sample_runtime (order_values sample_runtime order_body).
Proof.
  destruct (persisted_orders_complete sample_runtime) as [Hguard Hrows].
  split; [reflexivity |].
  split; [apply Hguard; reflexivity |].
  apply (Hrows [(all_up, PlaceOrder order_body)] 1). reflexivity.
Defined.

(** *** Successful placements *)

(** C8: in any world reached by serving requests, a placement answered 201
    returns an id that named no row before and names the inserted row
    after, the table otherwise unchanged (one row more); the row's
    order_status is 'pending' when the body supplies none. *)
Theorem placeOrder_created rt reqs E req_body :
  let w := serve rt reqs initial_world in
  status (placeOrder rt E req_body w).2 = 201 ->
  exists k,
    body (placeOrder rt E req_body w).2
    = CreatedBody "Commande créée avec succès." k
    /\ orders w !! k = None
    /\ orders (placeOrder rt E req_body w).1
       = <[k := order_values rt req_body]> (orders w)
    /\ size (orders (placeOrder rt E req_body w).1) = S (size (orders w))
    /\ (truthy (get req_body "order_status") = false ->
        order_status (order_values rt req_body) = Str "pending").
Proof.
  cbv zeta. set (w := serve rt reqs initial_world).
  assert (Hfresh : orders w !! auto_increment w = None).
  { destruct (orders w !! auto_increment w) as [r |] eqn:Hr; [| reflexivity].
    pose proof (serve_fresh_ids rt reqs _ _ Hr). fold w in H. lia. }
  rewrite placeOrder_eq.
  destruct (incomplete req_body); [discriminate |]. cbv zeta.
  destruct (query_error E); [discriminate |].
  destruct (build_orderDetails rt _ _ _) as [e | d]; [discriminate |].
  destruct (SendOrderNotification E d); [discriminate |].
  intros _. exists (auto_increment w). simpl.
  split; [reflexivity |]. split; [exact Hfresh |]. split; [reflexivity |].
  split; [apply map_size_insert_None, Hfresh |].
  intros ->. reflexivity.
Qed.

Lemma placeOrder_created_witness :
  status (placeOrder sample_runtime all_up order_body
            (serve sample_runtime [] initial_world)).2 = 201
  /\ exists k,
       body (placeOrder sample_runtime all_up order_body
               (serve sample_runtime [] initial_world)).2
       = CreatedBody "Commande créée avec succès." k
       /\ orders (placeOrder sample_runtime all_up order_body
                    (serve sample_runtime [] initial_world)).1
          = <[k := order_values sample_runtime order_body]> ∅.
Proof.
  split; [reflexivity |].
  destruct (placeOrder_created sample_runtime [] all_up order_body eq_refl)
    as (k & Hbody & _ & Horders & _).
  exists k. split; [exact Hbody | exact Horders].
Defined.

(** ** Further properties of the gateway flow *)

(** X1: for a non-empty id, the capture makes one call to the authority
    with that id and [return=minimal], and a reply that parses is handed
    back as it is: same payload, same status code. *)
Theorem captureOrder_forwards_reply rt E id w b code j :
  id <> "" ->
  let collect := {| collect_id := Str id; capture_prefer := "return=minimal" |} in
  ordersCapture E collect = Resolve b code ->
  JSON_parse rt b = inr j ->
  captureOrder rt E (Str id) w
  = (record_call (CallOrdersCapture collect) w, inr (j, code))
  /\ post_api_orders_capture rt E id w
     = (record_call (CallOrdersCapture collect) w,
        {| status := code; body := RawBody j |}).
Proof.
  intros Hid collect Hreply Hparse. subst collect.
  assert (Hc : captureOrder rt E (Str id) w
               = (record_call
                    (CallOrdersCapture
                       {| collect_id := Str id;
                          capture_prefer := "return=minimal" |}) w,
                  inr (j, code))).
  { unfold captureOrder, await_reply. run_M.
    rewrite (truthy_Str id Hid). cbn [negb]. rewrite Hreply, Hparse.
    reflexivity. }
  split; [exact Hc |].
  unfold post_api_orders_capture, respond.
  rewrite (truthy_Str id Hid), Hc. reflexivity.
Qed.

Lemma captureOrder_forwards_reply_witness :
  "5O190127TN364715T" <> ""
  /\ (post_api_orders_capture sample_runtime all_up "5O190127TN364715T"
        initial_world).2
     = {| status := 201;
          body := RawBody (Obj [("id", Str "5O190127TN364715T")]) |}.
Proof.
  split; [discriminate |].
  pose proof (captureOrder_forwards_reply sample_runtime all_up
                "5O190127TN364715T" initial_world "5O190127TN364715T" 201
                (Obj [("id", Str "5O190127TN364715T")])
                ltac:(discriminate) eq_refl eq_refl) as [_ H].
  rewrite H. reflexivity.
Defined.

(** X2: when the authority rejects the capture, or answers with a body that
    does not parse, the route answers 500 'Failed to capture order' after
    that single call; the details are the error's message, prefixed with
    'PayPal API Capture Error: ' for an ApiError. *)
Theorem capture_failure_reported rt E id w e :
  id <> "" ->
  let collect := {| collect_id := Str id; capture_prefer := "return=minimal" |} in
  (ordersCapture E collect = Reject e
   \/ exists b code, ordersCapture E collect = Resolve b code
                     /\ JSON_parse rt b = inl e) ->
  post_api_orders_capture rt E id w
  = (record_call (CallOrdersCapture collect) w,
     {| status := 500;
        body := ErrorBody "Failed to capture order"
                  (Some (capture_error_text e)) |}).
Proof.
  intros Hid collect Hfail. subst collect.
  unfold post_api_orders_capture, captureOrder, await_reply,
    capture_error_text. run_M.
  rewrite (truthy_Str id Hid). cbn [negb].
  destruct Hfail as [-> | (b & code & -> & Hparse)].
  - destruct (is_ApiError e); reflexivity.
  - rewrite Hparse. destruct (is_ApiError e); reflexivity.
Qed.

Lemma capture_failure_reported_witness :
  "5O190127TN364715T" <> ""
  /\ (post_api_orders_capture sample_runtime gateway_down "5O190127TN364715T"
        initial_world).2
     = {| status := 500;
          body := ErrorBody "Failed to capture order" (Some "ETIMEDOUT") |}.
Proof.
  split; [discriminate |].
  rewrite (capture_failure_reported sample_runtime gateway_down
             "5O190127TN364715T" initial_world (Rejection "ETIMEDOUT")
             ltac:(discriminate) (or_introl eq_refl)).
  reflexivity.
Defined.

Lemma rethrow_create_not_ApiError {A} error w w' e :
  @rethrow_create A error w = (w', inl e) -> is_ApiError e = false.
Proof.
  unfold rethrow_create, throw.
  destruct (is_ApiError error) eqn:Hk; intros [= _ <-]; [reflexivity | exact Hk].
Qed.

(** X3: whatever the collaborators do, an exception that leaves createOrder
    or captureOrder is never the SDK's ApiError: the catch blocks replace it
    by a plain Error. *)
Theorem gateway_functions_hide_ApiError rt E v w e :
  (createOrder rt E v w).2 = inl e \/ (captureOrder rt E v w).2 = inl e ->
  is_ApiError e = false.
Proof.
  intros [H | H].
  - unfold createOrder, try_catch in H.
    destruct ((validateCartData rt v;; request_authorization rt E v) w)
      as [w' [error | r]]; [| discriminate].
    destruct (@rethrow_create (value * Z) error w') as [w'' r] eqn:Hr.
    simpl in H. subst r.
    apply (rethrow_create_not_ApiError _ _ _ _ Hr).
  - unfold captureOrder in H.
    destruct (negb (truthy v)).
    { simpl in H. injection H as <-. reflexivity. }
    unfold try_catch in H.
    match type of H with
    | context [match ?m w with _ => _ end] =>
        destruct (m w) as [w' [error | r]]; [| discriminate]
    end.
    unfold throw in H. destruct (is_ApiError error) eqn:Hk; simpl in H;
      injection H as <-; [reflexivity | exact Hk].
Qed.

Lemma gateway_functions_hide_ApiError_witness :
  (createOrder sample_runtime gateway_down cart_6 initial_world).2
  = inl (Error "PayPal API Error: UNPROCESSABLE_ENTITY")
  /\ is_ApiError (Error "PayPal API Error: UNPROCESSABLE_ENTITY") = false.
Proof.
  split; [reflexivity |].
  apply (gateway_functions_hide_ApiError sample_runtime gateway_down cart_6
           initial_world).
  left. reflexivity.
Defined.

(** X4: for a cart that passes validation and from which the request can be
    built, a reply of the authority that parses is handed back as it is:
    the route answers with the authority's status code and payload, after
    one call. *)
Theorem createOrder_forwards_reply rt E req_body w c b code j :
  (validateCartData rt (get req_body "cart") w).2 = inr () ->
  build_collect rt (get req_body "cart") = inr c ->
  ordersCreate E c = Resolve b code ->
  JSON_parse rt b = inr j ->
  createOrder rt E (get req_body "cart") w
  = (record_call (CallOrdersCreate c) w, inr (j, code))
  /\ post_api_orders rt E req_body w
     = (record_call (CallOrdersCreate c) w,
        {| status := code; body := RawBody j |}).
Proof.
  intros Hv Hc Hreply Hparse.
  assert (Hcreate : createOrder rt E (get req_body "cart") w
                    = (record_call (CallOrdersCreate c) w, inr (j, code))).
  { rewrite (createOrder_after_validation rt E _ w Hv).
    unfold request_authorization, await_reply. run_M.
    rewrite Hc, Hreply, Hparse. reflexivity. }
  split; [exact Hcreate |].
  unfold post_api_orders, respond.
  rewrite (validated_cart_truthy _ _ _ Hv), Hcreate. reflexivity.
Qed.

Lemma createOrder_forwards_reply_witness :
  (validateCartData sample_runtime cart_6 initial_world).2 = inr ()
  /\ (post_api_orders sample_runtime all_up (Obj [("cart", cart_6)])
        initial_world).2
     = {| status := 201;
          body := RawBody (Obj [("id", Str "5O190127TN364715T")]) |}.
Proof.
  split; [reflexivity |].
  pose proof (createOrder_forwards_reply sample_runtime all_up
                (Obj [("cart", cart_6)]) initial_world _
                "5O190127TN364715T" 201
                (Obj [("id", Str "5O190127TN364715T")])
                eq_refl eq_refl eq_refl eq_refl) as [_ H].
  rewrite H. reflexivity.
Defined.

(** X5: a cart that passes validation but whose total is not a number, or
    one of whose items is null or has no numeric price, makes the request
    construction throw the engine's TypeError: the authority is not called
    and the route answers 500 'Failed to create order'. *)
Theorem createOrder_unpriced_cart rt E req_body w l :
  (validateCartData rt (get req_body "cart") w).2 = inr () ->
  get (get req_body "cart") "items" = Arr l ->
  is_number (get (get req_body "cart") "total") = false
  \/ forallb priced_item l = false ->
  createOrder rt E (get req_body "cart") w
  = (w, inl (TypeError (type_error_text rt)))
  /\ post_api_orders rt E req_body w
     = (w, {| status := 500;
              body := ErrorBody "Failed to create order"
                        (Some (type_error_text rt)) |}).
Proof.
  intros Hv Hitems Hbad.
  assert (Hbuild : build_collect rt (get req_body "cart") = type_error rt).
  { unfold build_collect. run_M. rewrite Hitems.
    destruct Hbad as [Ht | Hl].
    - destruct (get (get req_body "cart") "total"); try discriminate;
        reflexivity.
    - rewrite (build_items_unpriced rt l Hl).
      destruct (get (get req_body "cart") "total"); reflexivity. }
  assert (Hcreate : createOrder rt E (get req_body "cart") w
                    = (w, inl (TypeError (type_error_text rt)))).
  { rewrite (createOrder_after_validation rt E _ w Hv).
    unfold request_authorization, rethrow_create. run_M.
    rewrite Hbuild. reflexivity. }
  split; [exact Hcreate |].
  unfold post_api_orders, respond.
  rewrite (validated_cart_truthy _ _ _ Hv), Hcreate. reflexivity.
Qed.

Lemma createOrder_unpriced_cart_witness :
  let req_body :=
    Obj [("cart", Obj [("total", Num (number 6));
                       ("items", Arr [item_A; Null])])] in
  (validateCartData sample_runtime (get req_body "cart") initial_world).2
  = inr ()
  /\ forallb priced_item [item_A; Null] = false
  /\ post_api_orders sample_runtime all_up req_body initial_world
     = (initial_world,
        {| status := 500;
           body := ErrorBody "Failed to create order" (Some "TypeError") |}).
Proof.
  cbv zeta. do 2 (split; [reflexivity |]).
  apply (createOrder_unpriced_cart sample_runtime all_up
           (Obj [("cart", Obj [("total", Num (number 6));
                               ("items", Arr [item_A; Null])])])
           initial_world [item_A; Null] eq_refl eq_refl (or_intror eq_refl)).
Defined.

(** X6: on carts whose total is absent or a number, the total is examined
    first: an absent cart or an absent or non-positive total is reported as
    'Invalid cart: Total amount must be greater than zero' whatever the
    items are, and 'Invalid cart: No items found' is only reported for a
    positive total. *)
Theorem validateCartData_messages rt cart w :
  absent_or_number (get cart "total") = true ->
  (validateCartData rt cart w).2
  = if absent cart || absent (get cart "total")
       || match get cart "total" with
          | Num x => nonpositive_number x
          | _ => false
          end
    then inl (Error total_message)
    else if nonempty_sequence (get cart "items") then inr ()
         else inl (Error items_message).
Proof.
  unfold validateCartData, le_zero, ToNumber, total_message, items_message.
  run_M.
  destruct cart as [| | b | x | s | l | fs]; try reflexivity.
  - destruct b; reflexivity.
  - destruct x as [| | | [] ? ?]; reflexivity.
  - destruct s; reflexivity.
  - unfold get. generalize (assoc "total" fs) (assoc "items" fs).
    intros t i Ht.
    destruct t as [| | | x | | |]; try discriminate; try reflexivity.
    destruct x as [sx | sx | | sx m e]; try discriminate; try reflexivity.
    + destruct sx; [reflexivity |].
      destruct i as [| | | | | [|] |]; reflexivity.
    + destruct sx; [reflexivity |].
      destruct i as [| | | | | [|] |]; reflexivity.
Qed.

Lemma validateCartData_messages_witness :
  absent_or_number (get cart_empty "total") = true
  /\ (validateCartData sample_runtime cart_empty initial_world).2
     = inl (Error total_message).
Proof.
  split; [reflexivity |].
  rewrite (validateCartData_messages sample_runtime cart_empty initial_world
             eq_refl).
  reflexivity.
Defined.

(** ** Further properties of the store handlers *)

Lemma getOrderById_eq rt E id w :
  id <> "" -> query_error E = None ->
  getOrderById rt E id w
  = (record_call (CallQuery (SelectById id)) w,
     match sql_id rt id ≫= (fun k => orders w !! k) with
     | Some r => {| status := 200; body := RowBody r |}
     | None => {| status := 404; body := ErrorBody "Order not found" None |}
     end).
Proof.
  intros Hid Hq. unfold getOrderById, respond. rewrite db_query_eq, Hq.
  rewrite (truthy_Str id Hid). cbn [negb run_query fst snd results].
  cbn [record_call orders].
  destruct (sql_id rt id ≫= _); reflexivity.
Qed.

Lemma deleteOrder_eq rt E id w :
  id <> "" -> query_error E = None ->
  deleteOrder rt E id w
  = match sql_id rt id ≫= (fun k => orders w !! k ≫= fun _ => Some k) with
    | Some k =>
        (set_orders (delete k (orders w))
           (record_call (CallQuery (DeleteById id)) w),
         {| status := 200;
            body := DeletedBody "Order deleted successfully" id |})
    | None =>
        (record_call (CallQuery (DeleteById id)) w,
         {| status := 404; body := ErrorBody "Order not found" None |})
    end.
Proof.
  intros Hid Hq. unfold deleteOrder, respond. rewrite db_query_eq, Hq.
  rewrite (truthy_Str id Hid). cbn [negb run_query].
  cbn [record_call orders].
  destruct (sql_id rt id ≫= _); reflexivity.
Qed.

Lemma updateOrder_eq rt E id req_body w :
  id <> "" -> truthy (get req_body "orderStatus") = true ->
  query_error E = None ->
  updateOrder rt E id req_body w
  = match sql_id rt id
          ≫= (fun k => orders w !! k ≫= fun r => Some (k, r)) with
    | Some (k, r) =>
        (set_orders
           (<[k := set_order_status (get req_body "orderStatus") r]> (orders w))
           (record_call
              (CallQuery (UpdateStatus (get req_body "orderStatus") id)) w),
         {| status := 200;
            body := UpdatedBody "Order updated successfully"
                      (get req_body "orderStatus") |})
    | None =>
        (record_call
           (CallQuery (UpdateStatus (get req_body "orderStatus") id)) w,
         {| status := 404; body := ErrorBody "Order not found" None |})
    end.
Proof.
  intros Hid Hs Hq. unfold updateOrder, respond. rewrite db_query_eq, Hq.
  rewrite (truthy_Str id Hid), Hs. cbn [negb run_query].
  cbn [record_call orders].
  destruct (sql_id rt id ≫= _) as [[k r] |]; reflexivity.
Qed.

(** X7: for a non-empty id and a working store, getOrderById answers 404
    'Order not found' when the id names no row and 200 with the row when it
    names one; in both cases it issues the one SELECT and leaves the table
    as it was. *)
Theorem getOrderById_answers rt E id w :
  id <> "" ->
  query_error E = None ->
  let w1 := record_call (CallQuery (SelectById id)) w in
  ((forall k, sql_id rt id = Some k -> orders w !! k = None) ->
   getOrderById rt E id w
   = (w1, {| status := 404; body := ErrorBody "Order not found" None |}))
  /\ (forall k r,
         sql_id rt id = Some k -> orders w !! k = Some r ->
         getOrderById rt E id w
         = (w1, {| status := 200; body := RowBody r |})).
Proof.
  intros Hid Hq. cbv zeta. rewrite (getOrderById_eq rt E id w Hid Hq).
  split.
  - intros Hnone. destruct (sql_id rt id) as [k |]; simpl; [| reflexivity].
    rewrite (Hnone k eq_refl). reflexivity.
  - intros k r -> Hr. simpl. rewrite Hr. reflexivity.
Qed.

Lemma getOrderById_answers_witness :
  "7" <> ""
  /\ query_error all_up = None
  /\ sql_id sample_runtime "7" = Some 7
  /\ (getOrderById sample_runtime all_up "7" initial_world).2
     = {| status := 404; body := ErrorBody "Order not found" None |}.
Proof.
  split; [discriminate |]. do 2 (split; [reflexivity |]).
  destruct (getOrderById_answers sample_runtime all_up "7" initial_world
              ltac:(discriminate) eq_refl) as [Hnone _].
  rewrite Hnone; [reflexivity |].
  intros k _. reflexivity.
Defined.

(** X8: once placeOrder has inserted the order (the body is complete and
    the insert succeeds), reading the assigned id back returns exactly the
    nine values that were bound, whether or not the notification went
    through. *)
Theorem placed_order_can_be_read rt E E' req_body id w :
  incomplete req_body = false ->
  query_error E = None ->
  query_error E' = None ->
  id <> "" ->
  sql_id rt id = Some (auto_increment w) ->
  (getOrderById rt E' id (placeOrder rt E req_body w).1).2
  = {| status := 200; body := RowBody (order_values rt req_body) |}.
Proof.
  intros Hc Hq Hq' Hid Hk.
  rewrite (getOrderById_eq rt E' id _ Hid Hq'), Hk.
  assert (Ho : orders (placeOrder rt E req_body w).1
               = <[auto_increment w := order_values rt req_body]> (orders w)).
  { rewrite placeOrder_eq, Hc, Hq. cbv zeta.
    destruct (build_orderDetails rt _ _ _) as [e | d]; [reflexivity |].
    destruct (SendOrderNotification E d); reflexivity. }
  simpl. rewrite Ho, lookup_insert_eq. reflexivity.
Qed.

Lemma placed_order_can_be_read_witness :
  incomplete order_body = false
  /\ query_error mail_down = None
  /\ sql_id sample_runtime "1" = Some (auto_increment initial_world)
  /\ (getOrderById sample_runtime all_up "1"
        (placeOrder sample_runtime mail_down order_body initial_world).1).2
     = {| status := 200;
          body := RowBody (order_values sample_runtime order_body) |}.
Proof.
  do 3 (split; [reflexivity |]).
  apply (placed_order_can_be_read sample_runtime mail_down all_up order_body
           "1" initial_world eq_refl eq_refl eq_refl ltac:(discriminate)
           eq_refl).
Defined.

(** X9: for a non-empty id and a working store, deleteOrder on an id that
    names no row answers 404 and leaves the table as it was; on an id that
    names a row it answers 200 with that id, removes that row and leaves
    every other row in place. *)
Theorem deleteOrder_answers rt E id w :
  id <> "" ->
  query_error E = None ->
  let w1 := record_call (CallQuery (DeleteById id)) w in
  ((forall k, sql_id rt id = Some k -> orders w !! k = None) ->
   deleteOrder rt E id w
   = (w1, {| status := 404; body := ErrorBody "Order not found" None |}))
  /\ (forall k r,
         sql_id rt id = Some k -> orders w !! k = Some r ->
         deleteOrder rt E id w
         = (set_orders (delete k (orders w)) w1,
            {| status := 200;
               body := DeletedBody "Order deleted successfully" id |})
         /\ orders (deleteOrder rt E id w).1 !! k = None
         /\ forall k', k' <> k ->
              orders (deleteOrder rt E id w).1 !! k' = orders w !! k').
Proof.
  intros Hid Hq. cbv zeta. rewrite (deleteOrder_eq rt E id w Hid Hq).
  split.
  - intros Hnone. destruct (sql_id rt id) as [k |]; simpl; [| reflexivity].
    rewrite (Hnone k eq_refl). reflexivity.
  - intros k r -> Hr. simpl. rewrite Hr. simpl.
    split; [reflexivity |]. split; [apply lookup_delete_eq |].
    intros k' Hne. apply lookup_delete_ne. congruence.
Qed.

Lemma deleteOrder_answers_witness :
  let w := (placeOrder sample_runtime all_up order_body initial_world).1 in
  "1" <> ""
  /\ query_error all_up = None
  /\ sql_id sample_runtime "1" = Some 1
  /\ (exists r, orders w !! 1 = Some r)
  /\ (deleteOrder sample_runtime all_up "1" w).2
     = {| status := 200; body := DeletedBody "Order deleted successfully" "1" |}
  /\ orders (deleteOrder sample_runtime all_up "1" w).1 !! 1 = None.
Proof.
  cbv zeta. split; [discriminate |]. do 2 (split; [reflexivity |]).
  split; [eexists; reflexivity |].
  destruct (deleteOrder_answers sample_runtime all_up "1"
              (placeOrder sample_runtime all_up order_body initial_world).1
              ltac:(discriminate) eq_refl) as [_ Hsome].
  destruct (Hsome 1 _ eq_refl eq_refl) as (Heq & Hgone & _).
  split; [rewrite Heq; reflexivity | exact Hgone].
Defined.

(** X10: after a delete answered 200, the same id reads as 404, cannot be
    updated (404) and cannot be deleted a second time (404). *)
Theorem deleted_order_is_gone rt E E' id req_body w :
  id <> "" ->
  query_error E = None ->
  query_error E' = None ->
  truthy (get req_body "orderStatus") = true ->
  status (deleteOrder rt E id w).2 = 200 ->
  let w' := (deleteOrder rt E id w).1 in
  status (getOrderById rt E' id w').2 = 404
  /\ status (updateOrder rt E' id req_body w').2 = 404
  /\ status (deleteOrder rt E' id w').2 = 404.
Proof.
  intros Hid Hq Hq' Hs H200. cbv zeta.
  rewrite (getOrderById_eq rt E' id _ Hid Hq'),
    (updateOrder_eq rt E' id req_body _ Hid Hs Hq'),
    (deleteOrder_eq rt E' id _ Hid Hq').
  revert H200. rewrite (deleteOrder_eq rt E id w Hid Hq).
  destruct (sql_id rt id) as [k |]; simpl; [| discriminate].
  destruct (orders w !! k) as [r |]; simpl; [| discriminate].
  intros _. rewrite lookup_delete_eq. simpl. repeat split.
Qed.

Lemma deleted_order_is_gone_witness :
  let w := (placeOrder sample_runtime all_up order_body initial_world).1 in
  status (deleteOrder sample_runtime all_up "1" w).2 = 200
  /\ status (getOrderById sample_runtime all_up "1"
               (deleteOrder sample_runtime all_up "1" w).1).2 = 404.
Proof.
  cbv zeta. split; [reflexivity |].
  apply (deleted_order_is_gone sample_runtime all_up all_up "1" status_body
           (placeOrder sample_runtime all_up order_body initial_world).1
           ltac:(discriminate) eq_refl eq_refl eq_refl eq_refl).
Defined.

(** X11: after an update of an existing row, reading the id back returns
    the row with the new status and its eight other values unchanged, and
    the rows under every other id are the ones that were there. *)
Theorem updated_status_can_be_read rt E E' id req_body w k r :
  id <> "" ->
  truthy (get req_body "orderStatus") = true ->
  query_error E = None ->
  query_error E' = None ->
  sql_id rt id = Some k ->
  orders w !! k = Some r ->
  let w' := (updateOrder rt E id req_body w).1 in
  (getOrderById rt E' id w').2
  = {| status := 200;
       body := RowBody
                 {| email := email r; username := username r;
                    ville := ville r; quartier := quartier r;
                    phoneNumber := phoneNumber r;
                    paymentMethod := paymentMethod r;
                    totalAmount := totalAmount r;
                    order_status := get req_body "orderStatus";
                    cartItems := cartItems r |} |}
  /\ (forall k', k' <> k -> orders w' !! k' = orders w !! k')
  /\ auto_increment w' = auto_increment w.
Proof.
  intros Hid Hs Hq Hq' Hk Hr. cbv zeta.
  rewrite (getOrderById_eq rt E' id _ Hid Hq'),
    (updateOrder_eq rt E id req_body w Hid Hs Hq), Hk.
  simpl. rewrite Hr. simpl. rewrite lookup_insert_eq.
  split; [reflexivity |]. split; [| reflexivity].
  intros k' Hne. apply lookup_insert_ne. congruence.
Qed.

Lemma updated_status_can_be_read_witness :
  let w := (placeOrder sample_runtime all_up order_body initial_world).1 in
  let body := Obj [("orderStatus", Str "captured")] in
  sql_id sample_runtime "1" = Some 1
  /\ orders w !! 1 = Some (order_values sample_runtime order_body)
  /\ (getOrderById sample_runtime all_up "1"
        (updateOrder sample_runtime all_up "1" body w).1).2
     = {| status := 200;
          body := RowBody (set_order_status (Str "captured")
                             (order_values sample_runtime order_body)) |}.
Proof.
  cbv zeta. do 2 (split; [reflexivity |]).
  apply (updated_status_can_be_read sample_runtime all_up all_up "1"
           (Obj [("orderStatus", Str "captured")])
           (placeOrder sample_runtime all_up order_body initial_world).1
           1 (order_values sample_runtime order_body)
           ltac:(discriminate) eq_refl eq_refl eq_refl eq_refl eq_refl).
Defined.

(** *** Calls made by one request *)

Lemma captureOrder_trace rt E orderID w :
  (captureOrder rt E orderID w).1 = w
  \/ (captureOrder rt E orderID w).1
     = record_call (CallOrdersCapture {| collect_id := orderID;
                                         capture_prefer := "return=minimal" |}) w.
Proof.
  unfold captureOrder, await_reply. run_M.
  destruct (negb (truthy orderID)); [left; reflexivity |]. right.
  destruct (ordersCapture E _) as [b code | e].
  - destruct (JSON_parse rt b) as [e | j]; [| reflexivity].
    destruct (is_ApiError e); reflexivity.
  - destruct (is_ApiError e); reflexivity.
Qed.

Lemma handle_trace_cases rt E r w :
  exists calls, trace (handle rt E r w).1 = (trace w ++ calls)%list
                /\ call_pattern rt r calls.
Proof.
  destruct r as [b | i | b | | i | i b | i]; simpl.
  - rewrite post_api_orders_world.
    destruct (truthy (get b "cart"));
      [| exists []; split; [symmetry; apply app_nil_r | left; reflexivity]].
    destruct (createOrder_world rt E (get b "cart") w)
      as [-> | (c & _ & _ & ->)].
    + exists []. split; [symmetry; apply app_nil_r | left; reflexivity].
    + exists [CallOrdersCreate c]. split; [reflexivity | right; eauto].
  - assert (Hw : (post_api_orders_capture rt E i w).1
                 = if negb (truthy (Str i)) then w
                   else (captureOrder rt E (Str i) w).1).
    { unfold post_api_orders_capture, respond.
      destruct (negb (truthy (Str i))); [reflexivity |].
      destruct (captureOrder rt E (Str i) w) as [w' [e | [j code]]];
        reflexivity. }
    rewrite Hw.
    destruct (negb (truthy (Str i)));
      [exists []; split; [symmetry; apply app_nil_r | left; reflexivity] |].
    destruct (captureOrder_trace rt E (Str i) w) as [-> | ->].
    + exists []. split; [symmetry; apply app_nil_r | left; reflexivity].
    + eexists. split; [reflexivity | right; reflexivity].
  - rewrite placeOrder_eq.
    destruct (incomplete b);
      [exists []; split; [symmetry; apply app_nil_r | left; reflexivity] |].
    cbv zeta. destruct (query_error E).
    { eexists. split; [reflexivity | right; left; reflexivity]. }
    destruct (build_orderDetails rt _ _ _) as [e | d].
    { eexists. split; [reflexivity | right; left; reflexivity]. }
    exists [CallQuery (InsertOrder (order_values rt b));
            CallSendOrderNotification d].
    split; [| right; right; eauto].
    destruct (SendOrderNotification E d); simpl; rewrite <- app_assoc;
      reflexivity.
  - unfold getAllOrder, respond. rewrite db_query_eq.
    exists [CallQuery SelectAll]. split; [| reflexivity].
    destruct (query_error E); reflexivity.
  - unfold getOrderById, respond. rewrite db_query_eq.
    destruct (negb (truthy (Str i)));
      [exists []; split; [symmetry; apply app_nil_r | left; reflexivity] |].
    exists [CallQuery (SelectById i)]. split; [| right; reflexivity].
    destruct (query_error E); [reflexivity |].
    cbn [run_query fst snd results].
    destruct (sql_id rt i ≫= _); reflexivity.
  - unfold updateOrder, respond. rewrite db_query_eq.
    destruct (negb (truthy (Str i)));
      [exists []; split; [symmetry; apply app_nil_r | left; reflexivity] |].
    destruct (negb (truthy (get b "orderStatus")));
      [exists []; split; [symmetry; apply app_nil_r | left; reflexivity] |].
    eexists. split; [| right; reflexivity].
    destruct (query_error E); [reflexivity |].
    cbn [run_query]. destruct (sql_id rt i ≫= _) as [[k r] |]; reflexivity.
  - unfold deleteOrder, respond. rewrite db_query_eq.
    destruct (negb (truthy (Str i)));
      [exists []; split; [symmetry; apply app_nil_r | left; reflexivity] |].
    eexists. split; [| right; reflexivity].
    destruct (query_error E); [reflexivity |].
    cbn [run_query]. destruct (sql_id rt i ≫= _) as [k |]; reflexivity.
Qed.

(** X12: one request appends its calls to the trace and makes at most one
    call to the authority, or at most one query, followed for placeOrder
    alone by at most one notification; the gateway routes issue no query
    and the store handlers never call the authority. *)
Theorem handle_calls rt E r w :
  trace (handle rt E r w).1
  = (trace w ++ calls_since w (handle rt E r w).1)%list
  /\ call_pattern rt r (calls_since w (handle rt E r w).1).
Proof.
  destruct (handle_trace_cases rt E r w) as (calls & Htrace & Hpattern).
  assert (Hcalls : calls_since w (handle rt E r w).1 = calls).
  { unfold calls_since. rewrite Htrace. apply drop_app_length. }
  rewrite Hcalls. split; assumption.
Qed.

(** *** Failures of the store and client errors *)

Lemma gateway_calls_no_query q calls :
  forallb is_gateway_call calls = true -> CallQuery q ∈ calls -> False.
Proof.
  intros Hall Hin. apply list_elem_of_In in Hin.
  rewrite forallb_forall in Hall. specialize (Hall _ Hin). discriminate.
Qed.

Ltac no_call H := rewrite calls_since_refl in H; inversion H.

Ltac one_call H :=
  rewrite calls_since_record in H; apply list_elem_of_singleton in H;
  injection H as <-.

(** X13: when the store fails a query, the handler that issued it answers
    500 with the driver's message as details and does nothing else: the
    table is as it was and, for placeOrder, no notification is attempted. *)
Theorem store_failure_reported rt E r w err q :
  query_error E = Some err ->
  CallQuery q ∈ calls_since w (handle rt E r w).1 ->
  (handle rt E r w).1 = record_call (CallQuery q) w
  /\ status (handle rt E r w).2 = 500
  /\ exists text,
       body (handle rt E r w).2 = ErrorBody text (Some (message err)).
Proof.
  intros Hq Hin. destruct r as [b | i | b | | i | i b | i]; simpl in *.
  - exfalso. destruct (post_api_orders_frame rt E b w) as (_ & _ & Hall).
    apply (gateway_calls_no_query q _ Hall Hin).
  - exfalso. revert Hin. unfold post_api_orders_capture, respond.
    destruct (negb (truthy (Str i))); [intros Hin; no_call Hin |].
    pose proof (captureOrder_trace rt E (Str i) w) as Hw.
    destruct (captureOrder rt E (Str i) w) as [w' [e | [j code]]];
      simpl in *; destruct Hw as [-> | ->]; intros Hin;
      first [ no_call Hin
            | rewrite calls_since_record in Hin;
              apply list_elem_of_singleton in Hin; discriminate ].
  - revert Hin. rewrite placeOrder_eq, Hq.
    destruct (incomplete b); simpl; intros Hin; [no_call Hin |].
    one_call Hin. repeat split. eauto.
  - revert Hin. unfold getAllOrder, respond. rewrite db_query_eq, Hq.
    simpl. intros Hin. one_call Hin. repeat split. eauto.
  - revert Hin. unfold getOrderById, respond. rewrite db_query_eq, Hq.
    destruct (negb (truthy (Str i))); simpl; intros Hin; [no_call Hin |].
    one_call Hin. repeat split. eauto.
  - revert Hin. unfold updateOrder, respond. rewrite db_query_eq, Hq.
    destruct (negb (truthy (Str i))); simpl; [intros Hin; no_call Hin |].
    destruct (negb (truthy (get b "orderStatus"))); simpl; intros Hin;
      [no_call Hin |].
    one_call Hin. repeat split. eauto.
  - revert Hin. unfold deleteOrder, respond. rewrite db_query_eq, Hq.
    destruct (negb (truthy (Str i))); simpl; intros Hin; [no_call Hin |].
    one_call Hin. repeat split. eauto.
Qed.

Lemma store_failure_reported_witness :
  query_error store_down = Some (Rejection "ER_CON_COUNT_ERROR")
  /\ CallQuery (InsertOrder (order_values sample_runtime order_body))
       ∈ calls_since initial_world
           (handle sample_runtime store_down (PlaceOrder order_body)
              initial_world).1
  /\ handle sample_runtime store_down (PlaceOrder order_body) initial_world
     = (record_call
          (CallQuery (InsertOrder (order_values sample_runtime order_body)))
          initial_world,
        insert_failed_response (Rejection "ER_CON_COUNT_ERROR")).
Proof.
  assert (Hin : CallQuery (InsertOrder (order_values sample_runtime order_body))
                  ∈ calls_since initial_world
                      (handle sample_runtime store_down (PlaceOrder order_body)
                         initial_world).1).
  { apply list_elem_of_singleton. reflexivity. }
  split; [reflexivity |]. split; [exact Hin |].
  destruct (store_failure_reported sample_runtime store_down
              (PlaceOrder order_body) initial_world _ _ eq_refl Hin)
    as (Hw & _ & _).
  reflexivity.
Defined.

(** X14: an answer in the 4xx range guarantees that the orders table was
    not touched: neither a row nor the id counter changed. *)
Theorem client_error_leaves_table rt E r w :
  400 <= status (handle rt E r w).2 < 500 ->
  orders (handle rt E r w).1 = orders w
  /\ auto_increment (handle rt E r w).1 = auto_increment w.
Proof.
  destruct r as [b | i | b | | i | i b | i]; simpl.
  - intros _. destruct (post_api_orders_frame rt E b w) as (Ho & Ha & _).
    split; assumption.
  - intros _. apply post_api_orders_capture_frame.
  - rewrite placeOrder_eq.
    destruct (incomplete b); [split; reflexivity |]. cbv zeta.
    destruct (query_error E); [split; reflexivity |].
    destruct (build_orderDetails rt _ _ _) as [e | d];
      [simpl; intros H; lia |].
    destruct (SendOrderNotification E d); simpl; intros H; lia.
  - unfold getAllOrder, respond. rewrite db_query_eq.
    destruct (query_error E); split; reflexivity.
  - unfold getOrderById, respond. rewrite db_query_eq.
    destruct (negb (truthy (Str i))); [split; reflexivity |].
    destruct (query_error E); [split; reflexivity |].
    cbn [run_query fst snd results].
    destruct (sql_id rt i ≫= _); split; reflexivity.
  - unfold updateOrder, respond. rewrite db_query_eq.
    destruct (negb (truthy (Str i))); [split; reflexivity |].
    destruct (negb (truthy (get b "orderStatus"))); [split; reflexivity |].
    destruct (query_error E); [split; reflexivity |].
    cbn [run_query]. destruct (sql_id rt i ≫= _) as [[k r] |]; simpl;
      intros H; [lia | split; reflexivity].
  - unfold deleteOrder, respond. rewrite db_query_eq.
    destruct (negb (truthy (Str i))); [split; reflexivity |].
    destruct (query_error E); [split; reflexivity |].
    cbn [run_query]. destruct (sql_id rt i ≫= _) as [k |]; simpl;
      intros H; [lia | split; reflexivity].
Qed.

Lemma client_error_leaves_table_witness :
  let w := (placeOrder sample_runtime all_up order_body initial_world).1 in
  400 <= status (handle sample_runtime all_up (DeleteOrder "7") w).2 < 500
  /\ orders (handle sample_runtime all_up (DeleteOrder "7") w).1 = orders w.
Proof.
  cbv zeta.
  assert (H : 400 <= status (handle sample_runtime all_up (DeleteOrder "7")
                               (placeOrder sample_runtime all_up order_body
                                  initial_world).1).2 < 500)
    by (split; [discriminate | reflexivity]).
  split; [exact H |].
  apply (client_error_leaves_table sample_runtime all_up (DeleteOrder "7") _ H).
Defined.

(** X15: placeOrder gives one of four answers, and the answer tells whether
    the order exists: 400 (incomplete) and 500 'Erreur lors de la création
    de la commande.' mean that no row was written; 500 'Commande créée,
    mais échec de l'envoi de la notification.' and 201 mean that the row is
    in the table under the assigned id. *)
Theorem placeOrder_answers rt E req_body w :
  let w' := (placeOrder rt E req_body w).1 in
  let answer := (placeOrder rt E req_body w).2 in
  let inserted :=
    <[auto_increment w := order_values rt req_body]> (orders w) in
  (answer = incomplete_response /\ w' = w)
  \/ (exists err, answer = insert_failed_response err
                  /\ orders w' = orders w)
  \/ (exists e, answer = notification_failed_response e
                /\ orders w' = inserted)
  \/ (answer = created_response (auto_increment w)
      /\ orders w' = inserted).
Proof.
  cbv zeta. rewrite placeOrder_eq.
  destruct (incomplete req_body); [left; split; reflexivity |]. cbv zeta.
  destruct (query_error E) as [err |];
    [right; left; exists err; split; reflexivity |].
  destruct (build_orderDetails rt _ _ _) as [e | d];
    [right; right; left; exists e; split; reflexivity |].
  destruct (SendOrderNotification E d) as [e |].
  - right; right; left. exists e. split; reflexivity.
  - right; right; right. split; reflexivity.
Qed.

Lemma product_names_null rt l :
  existsb nullish l = true -> product_names rt l = type_error rt.
Proof.
  induction l as [| item l IH]; simpl; [discriminate |].
  unfold get_prop. run_M.
  destruct (nullish item); simpl; [reflexivity |].
  intros Hl. rewrite (IH Hl). reflexivity.
Qed.

(** X16: when the item list of a complete order holds a null (or undefined)
    entry, placeOrder still inserts the order, then fails while building
    the notification: SendOrderNotification is never called and the answer
    is the 500 'Commande créée, mais échec de l'envoi de la notification.'
    with the engine's TypeError text. *)
Theorem placeOrder_null_item rt E req_body w l :
  incomplete req_body = false ->
  query_error E = None ->
  get req_body "cartItems" = Arr l ->
  existsb nullish l = true ->
  let values := order_values rt req_body in
  placeOrder rt E req_body w
  = (insert_row values (record_call (CallQuery (InsertOrder values)) w),
     notification_failed_response (TypeError (type_error_text rt)))
  /\ calls_since w (placeOrder rt E req_body w).1
     = [CallQuery (InsertOrder values)].
Proof.
  intros Hc Hq Hitems Hnull. cbv zeta.
  rewrite placeOrder_eq, Hc, Hq. cbv zeta.
  unfold build_orderDetails. run_M.
  rewrite Hitems, (product_names_null rt l Hnull). simpl.
  split; [reflexivity |].
  unfold calls_since. simpl. apply drop_app_length.
Qed.

Lemma placeOrder_null_item_witness :
  incomplete order_body_null_item = false
  /\ query_error all_up = None
  /\ existsb nullish [item_A; Null] = true
  /\ (placeOrder sample_runtime all_up order_body_null_item initial_world).2
     = notification_failed_response (TypeError "TypeError")
  /\ orders (placeOrder sample_runtime all_up order_body_null_item
               initial_world).1 !! 1
     = Some (order_values sample_runtime order_body_null_item).
Proof.
  do 3 (split; [reflexivity |]).
  destruct (placeOrder_null_item sample_runtime all_up order_body_null_item
              initial_world [item_A; Null] eq_refl eq_refl eq_refl eq_refl)
    as [Heq _].
  rewrite Heq. split; reflexivity.
Defined.

(** *** The notification summary *)

Lemma product_names_labels rt items labels :
  Forall2 item_label items labels ->
  product_names rt items
  = inr (map (fun item => get item "productName") items).
Proof.
  induction 1 as [| item label items labels [Hnn _] _ IH]; [reflexivity |].
  simpl. unfold get_prop. run_M. rewrite Hnn, IH. reflexivity.
Qed.

Lemma join_names_labels rt items labels :
  Forall2 item_label items labels ->
  join_names rt (map (fun item => get item "productName") items)
  = inr (String.concat ", " labels).
Proof.
  induction 1 as [| item label items labels [_ Hlabel] Hrest IH];
    [reflexivity |].
  assert (Hs : (if nullish (get item "productName") then inr ""
                else ToString rt (get item "productName"))
               = (inr label : exn + string)).
  { destruct Hlabel as [-> | [-> ->]]; reflexivity. }
  cbn [map join_names]. run_M. rewrite Hs.
  destruct Hrest as [| item' label' items' labels' _ _]; [reflexivity |].
  rewrite IH. reflexivity.
Qed.

(** X17: the summary handed to SendOrderNotification names the customer by
    user_Name, lists the product names of the items joined by ', ' (an item
    without a name contributes an empty entry), carries the total and the
    phone number as received, and gives the place as the district and the
    city in that order, each as a template literal prints it. *)
Theorem orderDetails_summary rt user items labels total q v :
  Forall2 item_label items labels ->
  ToString rt (get user "quartier") = inr q ->
  ToString rt (get user "ville") = inr v ->
  build_orderDetails rt user (Arr items) total
  = inr {| clientName := get user "user_Name";
           productName := String.concat ", " labels;
           details_totalAmount := total;
           lieu := q +:+ ", " +:+ v;
           details_phoneNumber := get user "phoneNumber" |}.
Proof.
  intros Hlabels Hq Hv. unfold build_orderDetails. run_M.
  rewrite (product_names_labels rt items labels Hlabels),
    (join_names_labels rt items labels Hlabels), Hq, Hv.
  reflexivity.
Qed.

Lemma orderDetails_summary_witness :
  let user := Obj [("user_Name", Str "Ada"); ("ville", Str "Douala")] in
  Forall2 item_label [item_A; item_odd; item_B] ["A"; ""; "B"]
  /\ ToString sample_runtime (get user "quartier") = inr "undefined"
  /\ ToString sample_runtime (get user "ville") = inr "Douala"
  /\ build_orderDetails sample_runtime user
       (Arr [item_A; item_odd; item_B]) (Num (number 6))
     = inr {| clientName := Str "Ada";
              productName := "A, , B";
              details_totalAmount := Num (number 6);
              lieu := "undefined, Douala";
              details_phoneNumber := Undefined |}.
Proof.
  cbv zeta.
  assert (Hlabels : Forall2 item_label [item_A; item_odd; item_B]
                      ["A"; ""; "B"]).
  { constructor; [split; [reflexivity | left; reflexivity] |].
    constructor; [split; [reflexivity | right; split; reflexivity] |].
    constructor; [split; [reflexivity | left; reflexivity] |].
    constructor. }
  split; [exact Hlabels |]. do 2 (split; [reflexivity |]).
  apply (orderDetails_summary sample_runtime
           (Obj [("user_Name", Str "Ada"); ("ville", Str "Douala")])
           _ _ (Num (number 6)) "undefined" "Douala" Hlabels eq_refl eq_refl).
Defined.

(** *** getAllOrder *)

(** X18: with a working store, getAllOrder answers 200 with exactly the
    rows of the table, one entry per row, and leaves the table as it was. *)
Theorem getAllOrder_lists_table rt E w :
  query_error E = None ->
  exists data,
    getAllOrder rt E w
    = (record_call (CallQuery SelectAll) w,
       {| status := 200;
          body := ListBody "Orders retrieved successfully" data |})
    /\ length data = size (orders w)
    /\ forall r, r ∈ data <-> exists k, orders w !! k = Some r.
Proof.
  intros Hq. exists ((map_to_list (orders w)).*2).
  split; [| split].
  - unfold getAllOrder, respond. rewrite db_query_eq, Hq. reflexivity.
  - rewrite length_fmap. apply length_map_to_list.
  - intros r. rewrite list_elem_of_fmap. split.
    + intros ([k r'] & -> & Hin). exists k.
      apply elem_of_map_to_list, Hin.
    + intros [k Hk]. exists (k, r). split; [reflexivity |].
      apply elem_of_map_to_list, Hk.
Qed.

Lemma getAllOrder_lists_table_witness :
  let w := (placeOrder sample_runtime all_up order_body initial_world).1 in
  query_error all_up = None
  /\ exists data,
       (getAllOrder sample_runtime all_up w).2
       = {| status := 200;
            body := ListBody "Orders retrieved successfully" data |}
       /\ length data = 1%nat.
Proof.
  cbv zeta. split; [reflexivity |].
  destruct (getAllOrder_lists_table sample_runtime all_up
              (placeOrder sample_runtime all_up order_body initial_world).1
              eq_refl) as (data & Heq & Hlen & _).
  exists data. split; [rewrite Heq; reflexivity |].
  rewrite Hlen. reflexivity.
Defined.

(** *** Loading the module *)

Lemma truthy_env_var process_env varName :
  truthy (env_var process_env varName) = true <-> is_set process_env varName.
Proof.
  unfold env_var, is_set.
  destruct (process_env !! varName) as [s |]; simpl.
  - rewrite negb_true_iff, String.eqb_neq. split.
    + intros Hne. exists s. split; [reflexivity | exact Hne].
    + intros (s' & [= <-] & Hne). exact Hne.
  - split; [discriminate |]. intros (s & Hs & _). discriminate.
Qed.

Lemma check_required_None vars process_env :
  check_required vars process_env = None
  <-> Forall (is_set process_env) vars.
Proof.
  induction vars as [| varName vars IH]; simpl.
  - split; [constructor | reflexivity].
  - rewrite Forall_cons, <- IH, <- truthy_env_var.
    destruct (truthy (env_var process_env varName)); simpl.
    + tauto.
    + split; [discriminate |]. intros [? _]. discriminate.
Qed.

Lemma check_required_Some vars process_env code :
  check_required vars process_env = Some code -> code = 1.
Proof.
  induction vars as [| varName vars IH]; simpl; [discriminate |].
  destruct (negb (truthy (env_var process_env varName))); [| exact IH].
  intros [= <-]. reflexivity.
Qed.

Lemma is_set_dec process_env varName :
  is_set process_env varName \/ ~ is_set process_env varName.
Proof.
  destruct (truthy (env_var process_env varName)) eqn:Ht.
  - left. apply truthy_env_var, Ht.
  - right. intros Hset%truthy_env_var. congruence.
Qed.

Lemma load_module_set new_Client process_env i sec :
  process_env !! "PAYPAL_CLIENT_ID" = Some i -> i <> "" ->
  process_env !! "PAYPAL_CLIENT_SECRET" = Some sec -> sec <> "" ->
  load_module new_Client process_env
  = match new_Client (sandbox_config i sec) with
    | Some error => LoadFailed (Error "PayPal client initialization failed")
    | None => Loaded (sandbox_config i sec)
    end.
Proof.
  intros Hi Hine Hs Hsne. unfold load_module.
  assert (Hcheck : check_required requiredEnvVars process_env = None).
  { apply check_required_None. unfold requiredEnvVars.
    repeat constructor; eexists; eauto. }
  rewrite Hcheck. unfold createPayPalClient, env_var, sandbox_config.
  rewrite Hi, Hs. destruct (new_Client _); reflexivity.
Qed.

(** X19: loading the module exits with status 1 exactly when
    PAYPAL_CLIENT_ID or PAYPAL_CLIENT_SECRET is unset or empty, without
    constructing the client.  When both are set, the client is constructed
    from these two credentials with a timeout of 5000 ms in the Sandbox
    environment: if the constructor throws, whatever the error, the load
    fails with 'PayPal client initialization failed'; if it returns, the
    module is loaded with that client. *)
Theorem load_module_outcomes new_Client process_env :
  (forall code, load_module new_Client process_env = Exited code ->
                code = 1)
  /\ ((exists code, load_module new_Client process_env = Exited code)
      <-> ~ (is_set process_env "PAYPAL_CLIENT_ID"
             /\ is_set process_env "PAYPAL_CLIENT_SECRET"))
  /\ (forall e, load_module new_Client process_env = LoadFailed e ->
                e = Error "PayPal client initialization failed")
  /\ (forall client,
         load_module new_Client process_env = Loaded client ->
         exists i s,
           process_env !! "PAYPAL_CLIENT_ID" = Some i /\ i <> ""
           /\ process_env !! "PAYPAL_CLIENT_SECRET" = Some s /\ s <> ""
           /\ client = {| oAuthClientId := Str i; oAuthClientSecret := Str s;
                          timeout := 5000; environment := Sandbox;
                          logLevel := Info; logRequest_logBody := true;
                          logResponse_logHeaders := true |})
  /\ (forall i sec,
         process_env !! "PAYPAL_CLIENT_ID" = Some i -> i <> "" ->
         process_env !! "PAYPAL_CLIENT_SECRET" = Some sec -> sec <> "" ->
         (forall error,
             new_Client (sandbox_config i sec) = Some error ->
             load_module new_Client process_env
             = LoadFailed (Error "PayPal client initialization failed"))
         /\ (new_Client (sandbox_config i sec) = None ->
             load_module new_Client process_env
             = Loaded (sandbox_config i sec)))
  /\ (~ (is_set process_env "PAYPAL_CLIENT_ID"
         /\ is_set process_env "PAYPAL_CLIENT_SECRET") ->
      forall other_Client,
        load_module other_Client process_env
        = load_module new_Client process_env).
Proof.
  assert (Hexit : (exists code, load_module new_Client process_env
                                = Exited code)
                  <-> ~ (is_set process_env "PAYPAL_CLIENT_ID"
                         /\ is_set process_env "PAYPAL_CLIENT_SECRET")).
  { unfold load_module.
    pose proof (check_required_None requiredEnvVars process_env) as Hnone.
    unfold requiredEnvVars in *. rewrite !Forall_cons in Hnone.
    destruct (check_required _ process_env) as [code |] eqn:Hcheck.
    - split; [| eauto]. intros _ [Hid Hsecret].
      assert (Hbad : Some code = None) by (apply Hnone; repeat split; auto).
      discriminate.
    - destruct Hnone as [Hset _]. specialize (Hset eq_refl).
      destruct Hset as (Hid & Hsecret & _). split.
      + intros [c Hc].
        destruct (createPayPalClient new_Client process_env); discriminate.
      + intros Hnot. exfalso. apply Hnot. split; assumption. }
  split; [| split; [exact Hexit | split; [| split; [| split]]]].
  - unfold load_module. intros code.
    destruct (check_required _ process_env) as [c |] eqn:Hcheck.
    + intros [= <-]. apply (check_required_Some _ _ _ Hcheck).
    + destruct (createPayPalClient new_Client process_env); discriminate.
  - unfold load_module, createPayPalClient. intros e.
    destruct (check_required _ process_env); [discriminate |].
    destruct (new_Client _) as [err |]; intros [= <-]. reflexivity.
  - intros client Hloaded.
    assert (Hboth : is_set process_env "PAYPAL_CLIENT_ID"
                    /\ is_set process_env "PAYPAL_CLIENT_SECRET").
    { destruct (is_set_dec process_env "PAYPAL_CLIENT_ID") as [Hid | Hn];
        [destruct (is_set_dec process_env "PAYPAL_CLIENT_SECRET")
           as [Hsecret | Hn]; [split; assumption |] |];
        exfalso;
        (assert (Hnot : ~ (is_set process_env "PAYPAL_CLIENT_ID"
                           /\ is_set process_env "PAYPAL_CLIENT_SECRET"))
           by (intros [? ?]; auto));
        apply Hexit in Hnot as [code Hcode]; congruence. }
    destruct Hboth as [(i & Hi & Hine) (sec & Hs & Hsne)].
    exists i, sec.
    rewrite (load_module_set _ _ i sec Hi Hine Hs Hsne) in Hloaded.
    destruct (new_Client _) as [err |]; [discriminate |].
    injection Hloaded as <-. auto.
  - intros i sec Hi Hine Hs Hsne.
    rewrite (load_module_set _ _ i sec Hi Hine Hs Hsne).
    split; [intros error -> | intros ->]; reflexivity.
  - intros Hnot other_Client. unfold load_module.
    pose proof (check_required_None requiredEnvVars process_env) as Hnone.
    destruct (check_required requiredEnvVars process_env) as [code |];
      [reflexivity |].
    exfalso. apply Hnot. destruct Hnone as [Hset _].
    specialize (Hset eq_refl). unfold requiredEnvVars in Hset.
    rewrite !Forall_cons in Hset. destruct Hset as (? & ? & _).
    split; assumption.
Qed.

Lemma load_module_outcomes_witness :
  (exists code, load_module (fun _ => None) ∅ = Exited code)
  /\ ~ (is_set ∅ "PAYPAL_CLIENT_ID" /\ is_set ∅ "PAYPAL_CLIENT_SECRET")
  /\ credentials !! "PAYPAL_CLIENT_ID" = Some "id"
  /\ credentials !! "PAYPAL_CLIENT_SECRET" = Some "secret"
  /\ load_module (fun _ => None) credentials
     = Loaded (sandbox_config "id" "secret")
  /\ load_module (fun _ => Some (TypeError "invalid configuration"))
       credentials
     = LoadFailed (Error "PayPal client initialization failed").
Proof.
  destruct (load_module_outcomes (fun _ => None) ∅) as (_ & Hexit & _).
  split; [eexists; reflexivity |].
  split; [apply Hexit; eexists; reflexivity |].
  do 2 (split; [reflexivity |]).
  destruct (load_module_outcomes (fun _ => None) credentials)
    as (_ & _ & _ & _ & Hset & _).
  destruct (Hset "id" "secret" eq_refl ltac:(discriminate) eq_refl
              ltac:(discriminate)) as [_ Hloaded].
  split; [apply Hloaded; reflexivity |].
  destruct (load_module_outcomes
              (fun _ => Some (TypeError "invalid configuration")) credentials)
    as (_ & _ & _ & _ & Hset' & _).
  destruct (Hset' "id" "secret" eq_refl ltac:(discriminate) eq_refl
              ltac:(discriminate)) as [Hfailed _].
  apply (Hfailed (TypeError "invalid configuration")). reflexivity.
Defined.

(** *** The amount sent to the authority *)

Lemma read_hundredths_digit c acc rest :
  is_digit c = true ->
  read_hundredths acc (String c rest)
  = read_hundredths (10 * acc + digit_value c) rest.
Proof. intros Hc. cbn [read_hundredths]. rewrite Hc. reflexivity. Qed.

Ltac eval_digit_value :=
  match goal with
  | |- context [digit_value ?c] =>
      let v := eval vm_compute in (digit_value c) in
      change (digit_value c) with v
  end.

Lemma append_cons c s b : String c s +:+ b = String c (s +:+ b).
Proof. reflexivity. Qed.

Lemma read_digits_acc u p b :
  read_hundredths (Z.pos p) (NilEmpty.string_of_uint u +:+ b)
  = read_hundredths (Z.pos (Pos.of_uint_acc u p)) b.
Proof.
  revert p. induction u as [| u IH | u IH | u IH | u IH | u IH | u IH
                            | u IH | u IH | u IH | u IH]; intros p;
    cbn [NilEmpty.string_of_uint Pos.of_uint_acc];
    [reflexivity | ..];
    rewrite append_cons, read_hundredths_digit by reflexivity;
    rewrite <- IH; f_equal; eval_digit_value; lia.
Qed.

Lemma read_digits u b :
  read_hundredths 0 (NilEmpty.string_of_uint u +:+ b)
  = read_hundredths (Z.of_N (Pos.of_uint u)) b.
Proof.
  induction u as [| u IH | u IH | u IH | u IH | u IH | u IH
                  | u IH | u IH | u IH | u IH];
    cbn [NilEmpty.string_of_uint Pos.of_uint];
    [reflexivity | ..];
    rewrite append_cons, read_hundredths_digit by reflexivity;
    eval_digit_value;
    first [ exact IH | apply read_digits_acc ].
Qed.

Lemma read_decimal k b :
  0 <= k -> read_hundredths 0 (decimal k +:+ b) = read_hundredths k b.
Proof.
  intros Hk. unfold decimal.
  assert (Hval : Z.of_N (Pos.of_uint (N.to_uint (Z.to_N k))) = k).
  { change (Pos.of_uint ?u) with (N.of_uint u).
    rewrite DecimalN.Unsigned.of_to. apply Z2N.id, Hk. }
  generalize dependent (N.to_uint (Z.to_N k)). intros u <-.
  unfold NilZero.string_of_uint.
  destruct u; try apply read_digits. reflexivity.
Qed.

Lemma digit_value_digit d : 0 <= d <= 9 -> digit_value (digit d) = d.
Proof.
  intros Hd.
  assert (Hcases : d = 0 \/ d = 1 \/ d = 2 \/ d = 3 \/ d = 4 \/ d = 5
                   \/ d = 6 \/ d = 7 \/ d = 8 \/ d = 9) by lia.
  repeat (destruct Hcases as [-> | Hcases]; [reflexivity |]).
  subst d. reflexivity.
Qed.

Lemma read_fixed2 n : 0 <= n -> read_hundredths 0 (fixed2 n) = Some n.
Proof.
  intros Hn. unfold fixed2.
  assert (Hq : 0 <= n / 100) by (apply Z.div_pos; lia).
  pose proof (Z.mod_pos_bound n 100 ltac:(lia)) as Hr.
  pose proof (Z.mod_pos_bound n 10 ltac:(lia)) as Hr10.
  assert (Hd1 : 0 <= n mod 100 / 10 <= 9).
  { split; [apply Z.div_pos; lia |].
    assert (n mod 100 / 10 < 10) by (apply Z.div_lt_upper_bound; lia). lia. }
  rewrite (read_decimal _ _ Hq).
  cbv beta iota delta [String.append].
  cbn [read_hundredths].
  change (is_digit ".") with false. cbv iota.
  rewrite !is_digit_digit by lia. cbn [andb].
  rewrite !digit_value_digit by lia.
  f_equal.
  pose proof (Z.div_mod n 100 ltac:(lia)).
  pose proof (Z.div_mod (n mod 100) 10 ltac:(lia)).
  assert ((n mod 100) mod 10 = n mod 10).
  { rewrite <- (Z.mod_mod_divide n 100 10) ; [reflexivity |].
    exists 10. reflexivity. }
  lia.
Qed.

(** X20: when the cart total is a positive finite number below 10^21, the
    amount createOrder sends is a numeral with two decimals whose value is
    the multiple of 0.01 nearest to the total (the upper one on a tie): it
    differs from the client's total by at most half a hundredth. *)
Theorem createOrder_amount_nearest rt E cart w c m e :
  CallOrdersCreate c ∈ calls_since w (createOrder rt E cart w).1 ->
  get cart "total" = Num (S754_finite false m e) ->
  ge_1e21 m e = false ->
  exists n, read_hundredths 0 (amount_value c) = Some n
            /\ 0 <= n
            /\ nearest_hundredth m e n.
Proof.
  intros Hsent Htotal Hlt.
  apply createOrder_sent, build_collect_shape in Hsent.
  destruct Hsent as (_ & _ & total & l & Ht & _ & -> & _).
  rewrite Htotal in Ht. injection Ht as <-.
  cbn [toFixed2]. rewrite Hlt. cbn [sign_prefix].
  change ("" +:+ ?s) with s.
  assert (Hn : 0 <= nearest_hundredths m e).
  { unfold nearest_hundredths. destruct (Z.leb_spec 0 e).
    - assert (0 < 2 ^ e) by (apply Z.pow_pos_nonneg; lia). nia.
    - assert (0 < 2 ^ (- e)) by (apply Z.pow_pos_nonneg; lia).
      assert (0 < 2 ^ (- e + 1)) by (apply Z.pow_pos_nonneg; lia).
      apply Z.div_pos; lia. }
  exists (nearest_hundredths m e).
  split; [apply read_fixed2, Hn |]. split; [exact Hn |].
  unfold nearest_hundredth. destruct (Z.leb_spec 0 e) as [He | He].
  - unfold nearest_hundredths. destruct (Z.leb_spec 0 e); lia.
  - pose proof (nearest_hundredths_spec m e He) as Hspec.
    cbv zeta in Hspec. lia.
Qed.

Lemma createOrder_amount_nearest_witness :
  get cart_6 "total" = Num (S754_finite false 6755399441055744 (-50))
  /\ ge_1e21 6755399441055744 (-50) = false
  /\ exists c n,
       calls_since initial_world
         (createOrder sample_runtime all_up cart_6 initial_world).1
       = [CallOrdersCreate c]
       /\ read_hundredths 0 (amount_value c) = Some n
       /\ nearest_hundredth 6755399441055744 (-50) n.
Proof.
  do 2 (split; [reflexivity |]).
  pose (c := {| intent := "CAPTURE"; amount_currencyCode := "USD";
                amount_value := "6.00";
                items := [{| name := Str "A"; quantity := Num (number 2);
                             unit_amount_currency_code := "USD";
                             unit_amount_value := "3.00" |}];
                create_prefer := "return=minimal" |}).
  assert (Hin : CallOrdersCreate c
                  ∈ calls_since initial_world
                      (createOrder sample_runtime all_up cart_6
                         initial_world).1).
  { apply list_elem_of_singleton. reflexivity. }
  destruct (createOrder_amount_nearest sample_runtime all_up cart_6
              initial_world c _ _ Hin eq_refl eq_refl)
    as (n & Hread & _ & Hnear).
  exists c, n. split; [reflexivity |]. split; assumption.
Defined.

(** *** Bad requests *)

Lemma createOrder_returns rt E cart w w' x :
  createOrder rt E cart w = (w', inr x) ->
  exists c, w' = record_call (CallOrdersCreate c) w.
Proof.
  destruct (validateCartData rt cart w).2 as [e | []] eqn:Hv.
  - rewrite (createOrder_rejects_invalid rt E cart w e Hv). discriminate.
  - rewrite (createOrder_after_validation rt E cart w Hv).
    unfold request_authorization, rethrow_create, await_reply. run_M.
    destruct (build_collect rt cart) as [e | c].
    { destruct (is_ApiError e); discriminate. }
    destruct (ordersCreate E c) as [b code | e].
    + destruct (JSON_parse rt b) as [e | j].
      * destruct (is_ApiError e); discriminate.
      * intros [= <- _]. eauto.
    + destruct (is_ApiError e); discriminate.
Qed.

Lemma captureOrder_returns rt E orderID w w' x :
  captureOrder rt E orderID w = (w', inr x) ->
  exists c, w' = record_call (CallOrdersCapture c) w.
Proof.
  unfold captureOrder, await_reply. run_M.
  destruct (negb (truthy orderID)); [discriminate |].
  destruct (ordersCapture E _) as [b code | e].
  - destruct (JSON_parse rt b) as [e | j].
    + destruct (is_ApiError e); discriminate.
    + intros [= <- _]. eauto.
  - destruct (is_ApiError e); discriminate.
Qed.

(** X21: every handler answers 400 without a call or any other effect when
    its required input is missing (cart, route id, order status, or one of
    the fields of an order); conversely a 400 answer means that input was
    missing, except on the gateway routes, where it can also be the
    authority's own status handed back after the call. *)
Theorem bad_request_iff_missing_input rt E r w :
  (missing_input r = true ->
   (handle rt E r w).1 = w /\ status (handle rt E r w).2 = 400)
  /\ (status (handle rt E r w).2 = 400 ->
      missing_input r = true
      \/ exists ev, is_gateway_call ev = true
                    /\ (handle rt E r w).1 = record_call ev w).
Proof.
  assert (Hstr : forall i, negb (truthy (Str i)) = String.eqb i "").
  { intros i. simpl. apply negb_involutive. }
  destruct r as [b | i | b | | i | i b | i]; simpl.
  - unfold post_api_orders, respond.
    destruct (negb (truthy (get b "cart"))); [split; auto |].
    split; [discriminate |].
    destruct (createOrder rt E (get b "cart") w) as [w' [e | [j code]]] eqn:Hc;
      simpl; [discriminate |].
    intros _. right. apply createOrder_returns in Hc as [c ->].
    exists (CallOrdersCreate c). split; reflexivity.
  - unfold post_api_orders_capture, respond. rewrite Hstr.
    destruct (String.eqb i ""); [split; auto |].
    split; [discriminate |].
    destruct (captureOrder rt E (Str i) w) as [w' [e | [j code]]] eqn:Hc;
      simpl; [discriminate |].
    intros _. right. apply captureOrder_returns in Hc as [c ->].
    exists (CallOrdersCapture c). split; reflexivity.
  - rewrite placeOrder_eq.
    destruct (incomplete b); [split; auto |]. cbv zeta.
    split; [discriminate |].
    destruct (query_error E); [discriminate |].
    destruct (build_orderDetails rt _ _ _) as [e | d]; [discriminate |].
    destruct (SendOrderNotification E d); discriminate.
  - split; [discriminate |].
    unfold getAllOrder, respond. rewrite db_query_eq.
    destruct (query_error E); discriminate.
  - unfold getOrderById, respond. rewrite db_query_eq, Hstr.
    destruct (String.eqb i ""); [split; auto |].
    split; [discriminate |].
    destruct (query_error E); [discriminate |].
    cbn [run_query fst snd results].
    destruct (sql_id rt i ≫= _); discriminate.
  - unfold updateOrder, respond. rewrite db_query_eq, Hstr.
    destruct (String.eqb i ""); [split; auto |].
    destruct (negb (truthy (get b "orderStatus"))); [split; auto |].
    split; [discriminate |].
    destruct (query_error E); [discriminate |].
    cbn [run_query]. destruct (sql_id rt i ≫= _) as [[k r] |]; discriminate.
  - unfold deleteOrder, respond. rewrite db_query_eq, Hstr.
    destruct (String.eqb i ""); [split; auto |].
    split; [discriminate |].
    destruct (query_error E); [discriminate |].
    cbn [run_query]. destruct (sql_id rt i ≫= _) as [k |]; discriminate.
Qed.

Lemma bad_request_iff_missing_input_witness :
  missing_input (UpdateOrder "1" (Obj [("orderStatus", Str "")])) = true
  /\ handle sample_runtime all_up
       (UpdateOrder "1" (Obj [("orderStatus", Str "")]))
       (placeOrder sample_runtime all_up order_body initial_world).1
     = ((placeOrder sample_runtime all_up order_body initial_world).1,
        {| status := 400; body := ErrorBody "Order status is required" None |}).
Proof.
  split; [reflexivity |].
  destruct (bad_request_iff_missing_input sample_runtime all_up
              (UpdateOrder "1" (Obj [("orderStatus", Str "")]))
              (placeOrder sample_runtime all_up order_body initial_world).1)
    as [Hmissing _].
  destruct (Hmissing eq_refl) as [Hw Hstatus].
  reflexivity.
Defined.

(** X22: updateOrder keeps no history and checks no transition: after two
    updates of the same existing row the table is the one the second update
    alone would have produced (the last write wins). *)
Theorem updates_last_write_wins rt E E' id req_body req_body' w k r :
  id <> "" ->
  truthy (get req_body "orderStatus") = true ->
  truthy (get req_body' "orderStatus") = true ->
  query_error E = None ->
  query_error E' = None ->
  sql_id rt id = Some k ->
  orders w !! k = Some r ->
  orders (updateOrder rt E' id req_body' (updateOrder rt E id req_body w).1).1
  = orders (updateOrder rt E' id req_body' w).1
  /\ orders (updateOrder rt E' id req_body' w).1 !! k
     = Some (set_order_status (get req_body' "orderStatus") r).
Proof.
  intros Hid Hs Hs' Hq Hq' Hk Hr.
  rewrite (updateOrder_eq rt E' id req_body' _ Hid Hs' Hq'),
    (updateOrder_eq rt E id req_body w Hid Hs Hq),
    (updateOrder_eq rt E' id req_body' w Hid Hs' Hq'), Hk.
  simpl. rewrite Hr. simpl. rewrite lookup_insert_eq. simpl.
  rewrite insert_insert_eq, lookup_insert_eq. split; reflexivity.
Qed.

Lemma updates_last_write_wins_witness :
  let w := (placeOrder sample_runtime all_up order_body initial_world).1 in
  let first := Obj [("orderStatus", Str "captured")] in
  sql_id sample_runtime "1" = Some 1
  /\ orders w !! 1 = Some (order_values sample_runtime order_body)
  /\ orders (updateOrder sample_runtime all_up "1" status_body
               (updateOrder sample_runtime all_up "1" first w).1).1 !! 1
     = Some (order_values sample_runtime order_body).
Proof.
  cbv zeta. do 2 (split; [reflexivity |]).
  destruct (updates_last_write_wins sample_runtime all_up all_up "1"
              (Obj [("orderStatus", Str "captured")]) status_body
              (placeOrder sample_runtime all_up order_body initial_world).1
              1 (order_values sample_runtime order_body)
              ltac:(discriminate) eq_refl eq_refl eq_refl eq_refl eq_refl
              eq_refl) as [Hsame Hrow].
  rewrite Hsame, Hrow. reflexivity.
Defined.
